(** * WhichAI: the playground relay proxy and the pricing refresh helper

    A shallow embedding of [llm-dashboard/playground/proxy.py] and
    [llm-dashboard/refresh.py], and the properties of their specification.

    Layout:
    - [Py]: the Python values the two programs handle (str, bytes, int,
      float, list, dict) and the built-in operations they use on them;
    - [Proxy]: [ProxyHandler.do_OPTIONS] and [ProxyHandler.do_POST] as
      programs in a small effect monad that records what the handler
      sends and which outbound calls it issues;
    - [Refresh]: [fetch_url], the provider parsers, [merge_updates] over
      a store of model records, and the two steps of [main] that deal
      with prices, the loop over the providers and the merge;
    - [Scenario]: a scripted standard library and a small dataset on which
      the statements are run;
    - [ProxyWire]: the head of [do_POST], which reads the body;
      [MergeNotions], [Scenario2], [Scenario3]: notions and scenarios
      for the further properties;
    - [PyFacts], [ProxyProofs], [RefreshProofs]: the lemmas and the
      theorems, one group per program; [ProxyMore], [RefreshMore]:
      further properties of the two programs. *)

From Stdlib Require Import ZArith List String Ascii Bool Lia.
From Stdlib Require Import DecimalString.
From Stdlib Require Import PrimFloat FloatOps SpecFloat.
From stdpp Require Import base list.
Import ListNotations.

Open Scope Z_scope.

(* ================================================================== *)
(** ** Python values *)
(* ================================================================== *)

Module Py.

(** A Python [str] is a sequence of Unicode code points, a [bytes] object
    a sequence of octets. *)
Definition pystr := list Z.
Definition pybytes := list Z.

(** ASCII literals. *)
Definition U (s : string) : pystr :=
  map (fun a => Z.of_N (N_of_ascii a)) (list_ascii_of_string s).

(** The double-quote character. *)
Definition dquote : Z := 34.

Definition str_eqb (a b : pystr) : bool := bool_decide (a = b).

(** [str(n)] for an [int]. *)
Definition str_of_int (z : Z) : pystr :=
  U (NilZero.string_of_int (Z.to_int z)).

(** *** Floats

    A Python [float] is an IEEE 754 binary64 value, which is what the
    kernel's primitive [float] is.  [repr] prints the shortest decimal
    string that reads back as the same float (the closest one when several
    are as short), in exponent notation when the decimal point falls
    outside [-3, 16]. *)

(** The value [m * 2^e] of a positive finite float and the two ends of the
    interval of reals that round to it, as numerators over the common
    denominator [iv_den].  The ends belong to the interval when the
    significand is even (ties round to even). *)
Record rounding_interval := {
  iv_val : Z;
  iv_lo : Z;
  iv_hi : Z;
  iv_den : Z;
  iv_closed : bool
}.

Definition float_interval (m : positive) (e : Z) : rounding_interval :=
  let mz := Z.pos m in
  (* below a power of two the gap to the previous float is half as wide *)
  let narrow := (mz =? 2 ^ 52) && (-1074 <? e) in
  let e2 := e - 2 in
  let num := if 0 <=? e2 then 2 ^ e2 else 1 in
  let den := if 0 <=? e2 then 1 else 2 ^ (- e2) in
  {| iv_val := 4 * mz * num;
     iv_lo := (if narrow then 4 * mz - 1 else 4 * mz - 2) * num;
     iv_hi := (4 * mz + 2) * num;
     iv_den := den;
     iv_closed := Z.even mz |}.

(** [val < 10^k] *)
Definition below_pow10 (iv : rounding_interval) (k : Z) : bool :=
  if 0 <=? k then iv_val iv <? 10 ^ k * iv_den iv
  else iv_val iv * 10 ^ (- k) <? iv_den iv.

Fixpoint decpt_down (fuel : nat) (iv : rounding_interval) (k : Z) : Z :=
  match fuel with
  | O => k
  | S fuel' =>
      if below_pow10 iv (k - 1) then decpt_down fuel' iv (k - 1) else k
  end.

Fixpoint decpt_up (fuel : nat) (iv : rounding_interval) (k : Z) : Z :=
  match fuel with
  | O => k
  | S fuel' => if below_pow10 iv k then k else decpt_up fuel' iv (k + 1)
  end.

(** The position of the decimal point: the least [k] with [val < 10^k],
    found from the estimate [log2 val * log10 2]. *)
Definition decpt (iv : rounding_interval) : Z :=
  let est := (Z.log2 (iv_val iv) - Z.log2 (iv_den iv)) * 30103 / 100000 in
  decpt_down 8 iv (decpt_up 8 iv est).

(** The [p]-digit decimal [d * 10^(k-p)] that reads back as the float, if
    there is one: the floor or the ceiling of the value at that precision,
    whichever lies in the rounding interval, the closer when both do. *)
Definition digits_at (iv : rounding_interval) (k p : Z) : option Z :=
  let s := k - p in
  let up := if 0 <=? s then 1 else 10 ^ (- s) in
  let unit := if 0 <=? s then iv_den iv * 10 ^ s else iv_den iv in
  let v := iv_val iv * up in
  let lo := iv_lo iv * up in
  let hi := iv_hi iv * up in
  let d0 := v / unit in
  let c0 := d0 * unit in
  let c1 := (d0 + 1) * unit in
  let ok0 := if iv_closed iv then lo <=? c0 else lo <? c0 in
  let ok1 := if iv_closed iv then c1 <=? hi else c1 <? hi in
  match ok0, ok1 with
  | true, true =>
      match (v - c0) ?= (c1 - v) with
      | Lt => Some d0
      | Gt => Some (d0 + 1)
      | Eq => Some (if Z.even d0 then d0 else d0 + 1)
      end
  | true, false => Some d0
  | false, true => Some (d0 + 1)
  | false, false => None
  end.

Fixpoint shortest_from (fuel : nat) (iv : rounding_interval) (k p : Z)
  : Z * Z :=
  match fuel with
  | O => (iv_val iv / iv_den iv, p)
  | S fuel' =>
      match digits_at iv k p with
      | Some d => (d, p)
      | None => shortest_from fuel' iv k (p + 1)
      end
  end.

Fixpoint strip_zeros (fuel : nat) (d : Z) : Z :=
  match fuel with
  | O => d
  | S fuel' =>
      if (d mod 10 =? 0) && (0 <? d) then strip_zeros fuel' (d / 10) else d
  end.

(** The digits of the shortest representation and the decimal point:
    the float is [0.d1d2...dn * 10^k]. *)
Definition shortest_digits (m : positive) (e : Z) : pystr * Z :=
  let iv := float_interval m e in
  let k := decpt iv in
  let '(d, p) := shortest_from 17 iv k 1 in
  let k' := if d =? 10 ^ p then k + 1 else k in
  (str_of_int (strip_zeros 20 d), k').

Definition zeros (n : Z) : pystr := repeat 48 (Z.to_nat n).

Definition format_exponent (x : Z) : pystr :=
  let a := str_of_int (Z.abs x) in
  (if x <? 0 then U "-" else U "+")
    ++ (if Z.abs x <? 10 then 48 :: a else a).

Definition format_short (ds : pystr) (k : Z) : pystr :=
  let n := Z.of_nat (length ds) in
  if (k <? -3) || (16 <? k) then
    match ds with
    | [] => []
    | d :: rest =>
        d :: (match rest with [] => [] | _ => U "." ++ rest end)
          ++ U "e" ++ format_exponent (k - 1)
    end
  else if k <=? 0 then U "0." ++ zeros (- k) ++ ds
  else if n <=? k then ds ++ zeros (k - n) ++ U ".0"
  else take (Z.to_nat k) ds ++ U "." ++ drop (Z.to_nat k) ds.

(** [repr(f)] for a [float]. *)
Definition float_repr (f : float) : pystr :=
  match Prim2SF f with
  | S754_nan => U "nan"
  | S754_infinity false => U "inf"
  | S754_infinity true => U "-inf"
  | S754_zero false => U "0.0"
  | S754_zero true => U "-0.0"
  | S754_finite sign m e =>
      let '(ds, k) := shortest_digits m e in
      (if sign then U "-" else []) ++ format_short ds k
  end.

(** *** Hexadecimal and escapes *)

Definition hex_digit (n : Z) : Z := if n <? 10 then 48 + n else 87 + n.

(** The [w] low hexadecimal digits of [c], most significant first. *)
Fixpoint hex_fixed (w : nat) (c : Z) : pystr :=
  match w with
  | O => []
  | S w' => hex_digit (Z.land (Z.shiftr c (4 * Z.of_nat w')) 15) :: hex_fixed w' c
  end.

Definition is_ascii (c : Z) : bool := (0 <=? c) && (c <? 128).
Definition all_ascii (s : pystr) : bool := forallb is_ascii s.

(** *** Values

    What [json.loads] builds and what a record of [data.json] holds. *)
Definition pydict (V : Type) := list (pystr * V).

#[local] Set Warnings "-register-all".
Inductive pyval :=
| VNone
| VBool (b : bool)
| VInt (z : Z)
| VFloat (f : float)
| VStr (s : pystr)
| VList (l : list pyval)
| VDict (d : list (pystr * pyval)).

(** [d.get(k)], [k in d] and [d[k] = v] on a dict kept in insertion
    order: assigning to a key that is there keeps its place. *)
Fixpoint dict_get {V} (d : pydict V) (k : pystr) : option V :=
  match d with
  | [] => None
  | (k', v) :: rest => if str_eqb k' k then Some v else dict_get rest k
  end.

Definition dict_mem {V} (d : pydict V) (k : pystr) : bool :=
  match dict_get d k with Some _ => true | None => false end.

Fixpoint dict_set {V} (d : pydict V) (k : pystr) (v : V) : pydict V :=
  match d with
  | [] => [(k, v)]
  | (k', v') :: rest =>
      if str_eqb k' k then (k', v) :: rest else (k', v') :: dict_set rest k v
  end.

(** [d.update(e)] *)
Definition dict_update {V} (d e : pydict V) : pydict V :=
  fold_left (fun acc kv => dict_set acc (fst kv) (snd kv)) e d.

Definition join (sep : pystr) (parts : list pystr) : pystr :=
  match parts with
  | [] => []
  | p :: rest => p ++ concat (List.map (fun q => sep ++ q) rest)
  end.

(** *** [repr] and [str]

    [repr] of a str escapes the characters that are not printable.  Which
    code points above ASCII are printable is a matter of the Unicode
    database: it is a parameter here. *)
Section Repr.

Variable isprintable : Z -> bool.

Definition repr_char (quote c : Z) : pystr :=
  if (c =? quote) || (c =? 92) then [92; c]
  else if c =? 9 then U "\t"
  else if c =? 10 then U "\n"
  else if c =? 13 then U "\r"
  else if (c <? 32) || (c =? 127) then U "\x" ++ hex_fixed 2 c
  else if c <? 127 then [c]
  else if isprintable c then [c]
  else if c <=? 255 then U "\x" ++ hex_fixed 2 c
  else if c <=? 65535 then U "\u" ++ hex_fixed 4 c
  else U "\U" ++ hex_fixed 8 c.

(** Single quotes, unless the text has one and no double quote. *)
Definition repr_str (s : pystr) : pystr :=
  let quote :=
    if existsb (Z.eqb 39) s && negb (existsb (Z.eqb dquote) s)
    then dquote else 39 in
  quote :: concat (List.map (repr_char quote) s) ++ [quote].

Fixpoint py_repr (v : pyval) : pystr :=
  match v with
  | VNone => U "None"
  | VBool true => U "True"
  | VBool false => U "False"
  | VInt z => str_of_int z
  | VFloat f => float_repr f
  | VStr s => repr_str s
  | VList l => U "[" ++ join (U ", ") (List.map py_repr l) ++ U "]"
  | VDict d =>
      U "{"
        ++ join (U ", ")
             (List.map (fun kv => match kv with
                                  | (k, x) => repr_str k ++ U ": " ++ py_repr x
                                  end) d)
        ++ U "}"
  end.

(** [str(v)], which is what an f-string puts in place of [{v}]. *)
Definition py_str (v : pyval) : pystr :=
  match v with
  | VStr s => s
  | _ => py_repr v
  end.

End Repr.

(** *** [json.dumps]

    With the default [ensure_ascii], a string is written in ASCII: the
    short escapes, and [\uXXXX] for everything outside the printable
    range, as a surrogate pair above the basic plane. *)
Definition json_escape_char (c : Z) : pystr :=
  if c =? 92 then [92; 92]
  else if c =? dquote then [92; dquote]
  else if c =? 8 then U "\b"
  else if c =? 12 then U "\f"
  else if c =? 10 then U "\n"
  else if c =? 13 then U "\r"
  else if c =? 9 then U "\t"
  else if (32 <=? c) && (c <=? 126) then [c]
  else if c <? 65536 then U "\u" ++ hex_fixed 4 c
  else
    let n := c - 65536 in
    let s1 := Z.lor 55296 (Z.land (Z.shiftr n 10) 1023) in
    let s2 := Z.lor 56320 (Z.land n 1023) in
    U "\u" ++ hex_fixed 4 s1 ++ U "\u" ++ hex_fixed 4 s2.

Definition json_string (s : pystr) : pystr :=
  dquote :: concat (List.map json_escape_char s) ++ [dquote].

Definition json_float (f : float) : pystr :=
  match Prim2SF f with
  | S754_nan => U "NaN"
  | S754_infinity false => U "Infinity"
  | S754_infinity true => U "-Infinity"
  | _ => float_repr f
  end.

Fixpoint json_dumps (v : pyval) : pystr :=
  match v with
  | VNone => U "null"
  | VBool true => U "true"
  | VBool false => U "false"
  | VInt z => str_of_int z
  | VFloat f => json_float f
  | VStr s => json_string s
  | VList l => U "[" ++ join (U ", ") (List.map json_dumps l) ++ U "]"
  | VDict d =>
      U "{"
        ++ join (U ", ")
             (List.map (fun kv => match kv with
                                  | (k, x) => json_string k ++ U ": " ++ json_dumps x
                                  end) d)
        ++ U "}"
  end.

(** *** [str.encode("utf-8")]

    A surrogate cannot be encoded: [UnicodeEncodeError], here [None]. *)
Definition utf8_char (c : Z) : option pybytes :=
  if c <? 0 then None
  else if c <? 128 then Some [c]
  else if c <? 2048 then
    Some [Z.lor 192 (Z.shiftr c 6); Z.lor 128 (Z.land c 63)]
  else if (55296 <=? c) && (c <=? 57343) then None
  else if c <? 65536 then
    Some [Z.lor 224 (Z.shiftr c 12);
          Z.lor 128 (Z.land (Z.shiftr c 6) 63);
          Z.lor 128 (Z.land c 63)]
  else if c <? 1114112 then
    Some [Z.lor 240 (Z.shiftr c 18);
          Z.lor 128 (Z.land (Z.shiftr c 12) 63);
          Z.lor 128 (Z.land (Z.shiftr c 6) 63);
          Z.lor 128 (Z.land c 63)]
  else None.

Fixpoint encode_utf8 (s : pystr) : option pybytes :=
  match s with
  | [] => Some []
  | c :: rest =>
      match utf8_char c, encode_utf8 rest with
      | Some b, Some bs => Some (b ++ bs)
      | _, _ => None
      end
  end.

(** *** Numbers and [!=]

    An int and a float are compared by their exact values, and [nan]
    differs from everything, itself included.  A number never equals
    [None], a str, a list or a dict; [True] and [False] count as 1 and 0. *)
Inductive pynum :=
| NInt (z : Z)
| NFloat (f : float).

Definition num_val (n : pynum) : pyval :=
  match n with
  | NInt z => VInt z
  | NFloat f => VFloat f
  end.

Definition float_eq_int (f : float) (z : Z) : bool :=
  match Prim2SF f with
  | S754_zero _ => z =? 0
  | S754_finite sign m e =>
      let mz := if sign then Z.neg m else Z.pos m in
      if 0 <=? e then z =? mz * 2 ^ e else z * 2 ^ (- e) =? mz
  | _ => false
  end.

Definition num_eq_int (n : pynum) (z : Z) : bool :=
  match n with
  | NInt a => a =? z
  | NFloat f => float_eq_int f z
  end.

Definition num_eq_float (n : pynum) (g : float) : bool :=
  match n with
  | NInt a => float_eq_int g a
  | NFloat f => PrimFloat.eqb f g
  end.

(** [n != v] *)
Definition num_ne (n : pynum) (v : pyval) : bool :=
  match v with
  | VBool b => negb (num_eq_int n (if b then 1 else 0))
  | VInt z => negb (num_eq_int n z)
  | VFloat g => negb (num_eq_float n g)
  | VNone | VStr _ | VList _ | VDict _ => true
  end.

Definition num_is_nan (n : pynum) : bool :=
  match n with
  | NInt _ => false
  | NFloat f => PrimFloat.is_nan f
  end.

(** *** Exceptions

    A call returns a value or raises. *)
Inductive exn :=
| AttributeError
| KeyError
| TypeError
| UnicodeEncodeError
| OtherError (name : string).

Inductive outcome (A : Type) :=
| Ret (a : A)
| Raise (e : exn).
Arguments Ret {A} a.
Arguments Raise {A} e.

(** ASCII literals in which an apostrophe stands for the double quote. *)
Definition Q (s : string) : pystr :=
  List.map (fun c => if c =? 39 then dquote else c) (U s).

End Py.

(* ================================================================== *)
(** ** The relay proxy: [playground/proxy.py] *)
(* ================================================================== *)

Module Proxy.
Import Py.

Definition ALLOWED_HOSTS : list pystr :=
  [ U "api.openai.com";
    U "api.anthropic.com";
    U "generativelanguage.googleapis.com" ].

Definition PORT : Z := 8765.

(** *** The standard library the handler calls

    [json.loads], [urlparse], [Request] and [urlopen] are not code of the
    proxy.  The handler is modelled over what they answer. *)

(** [json.loads(raw)]: a value, [json.JSONDecodeError], or another
    exception (bytes that cannot be decoded, too deep a nesting). *)
Inductive loads_result :=
| Loaded (payload : pyval)
| JSONDecodeError
| LoadsRaises (e : exn).

(** The request handed to [urlopen]: the url and data given to [Request]
    and the [add_header] calls made on it, in order. *)
Record outbound := {
  req_url : pyval;
  req_data : pybytes;
  req_headers : list (pystr * pyval)
}.

(** What [urlopen(req, timeout)] followed by [resp.read()] gives: a
    response with its [status], [getheader] and body; an [HTTPError] with
    its [code] and body; or some other failure of the transport. *)
Inductive upstream :=
| Response (status : Z) (getheader : pystr -> option pystr) (body : pybytes)
| HTTPError (code : Z) (body : pybytes)
| TransportError (e : exn).

Record stdlib := {
  json_loads : pybytes -> loads_result;
  (** [urlparse(url).hostname] *)
  urlparse_hostname : pyval -> outcome (option pystr);
  (** [Request(url, data=data)], which rejects some urls *)
  Request_init : pyval -> pybytes -> outcome unit;
  urlopen : outbound -> Z -> upstream
}.

(** *** What the handler does

    A handler run is the sequence of its calls on the connection and on
    the network, and how it ends.  ([send_response] also sends the Server
    and Date headers of [BaseHTTPRequestHandler]; they are the same for
    every response and are left out.) *)
Inductive event :=
| SendResponse (code : Z)
| SendHeader (key value : pystr)
| EndHeaders
| WfileWrite (data : pybytes)
| UrlOpen (req : outbound) (timeout : Z).

Definition M (A : Type) : Type := list event * outcome A.

Definition ret {A} (a : A) : M A := ([], Ret a).

Definition bind {A B} (m : M A) (k : A -> M B) : M B :=
  match m with
  | (t, Ret a) => let '(t', r) := k a in (t ++ t', r)
  | (t, Raise e) => (t, Raise e)
  end.

Definition emit (ev : event) : M unit := ([ev], Ret tt).
Definition raise {A} (e : exn) : M A := ([], Raise e).
Definition lift {A} (r : outcome A) : M A := ([], r).

Declare Scope handler_scope.
Delimit Scope handler_scope with handler.
Notation "x <- c1 ;; c2" := (bind c1 (fun x => c2))
  (at level 100, c1 at next level, c2 at level 200, right associativity)
  : handler_scope.
Notation "c1 ;; c2" := (bind c1 (fun _ => c2))
  (at level 100, c2 at level 200, right associativity) : handler_scope.
Open Scope handler_scope.

Definition send_response (code : Z) : M unit := emit (SendResponse code).
Definition send_header (k v : pystr) : M unit := emit (SendHeader k v).
Definition end_headers : M unit := emit EndHeaders.
Definition wfile_write (b : pybytes) : M unit := emit (WfileWrite b).

(** [s.encode("utf-8")] *)
Definition encode (s : pystr) : M pybytes :=
  match encode_utf8 s with
  | Some b => ret b
  | None => raise UnicodeEncodeError
  end.

(** [payload.get(key, dflt)]: only a dict has [get]. *)
Definition payload_get (payload : pyval) (key : pystr) (dflt : pyval)
  : M pyval :=
  match payload with
  | VDict d => ret (default dflt (dict_get d key))
  | _ => raise AttributeError
  end.

(** [headers.items()] *)
Definition items (headers : pyval) : M (list (pystr * pyval)) :=
  match headers with
  | VDict d => ret d
  | _ => raise AttributeError
  end.

(** [host in ALLOWED_HOSTS]; [None] is no member. *)
Definition host_allowed (host : option pystr) : bool :=
  match host with
  | Some h => existsb (str_eqb h) ALLOWED_HOSTS
  | None => false
  end.

(** [f"{host}"] *)
Definition host_str (host : option pystr) : pystr :=
  match host with
  | Some h => h
  | None => U "None"
  end.

(** [body.encode("utf-8") if isinstance(body, str)
     else json.dumps(body).encode("utf-8")] *)
Definition request_data (body : pyval) : M pybytes :=
  match body with
  | VStr s => encode s
  | _ => encode (json_dumps body)
  end.

Definition truthy (s : pystr) : bool :=
  match s with [] => false | _ => true end.

(** The request as the handler sees it: [self.path] and the bytes that
    [self.rfile.read(length)] returned. *)
Record inbound := {
  path : pystr;
  raw : pybytes
}.

Section Handler.

Variable lib : stdlib.

Definition _cors_headers : M unit :=
  send_header (U "Access-Control-Allow-Origin") (U "*") ;;
  send_header (U "Access-Control-Allow-Methods") (U "POST, OPTIONS") ;;
  send_header (U "Access-Control-Allow-Headers") (U "Content-Type").

Definition do_OPTIONS : M unit :=
  send_response 204 ;;
  _cors_headers ;;
  end_headers.

(** [for key in ("Content-Type",)]: forward the header when [getheader]
    gives a value that is true. *)
Fixpoint forward_headers (getheader : pystr -> option pystr)
  (keys : list pystr) : M unit :=
  match keys with
  | [] => ret tt
  | key :: rest =>
      (match getheader key with
       | Some val => if truthy val then send_header key val else ret tt
       | None => ret tt
       end) ;;
      forward_headers getheader rest
  end.

(** [do_POST], the branch of a host that is not allowed. *)
Definition reject (host : option pystr) : M unit :=
  send_response 403 ;;
  _cors_headers ;;
  end_headers ;;
  msg <- encode (json_dumps
           (VDict [(U "error",
                    VStr (U "Host not allowed: " ++ host_str host))])) ;;
  wfile_write msg.

(** [do_POST], what follows [urlopen]: the [try] body on a response, the
    [except HTTPError] body on an error response; any other exception
    leaves the handler. *)
Definition respond (up : upstream) : M unit :=
  match up with
  | Response status getheader resp_body =>
      send_response status ;;
      _cors_headers ;;
      forward_headers getheader [U "Content-Type"] ;;
      end_headers ;;
      wfile_write resp_body
  | HTTPError code body_bytes =>
      send_response code ;;
      _cors_headers ;;
      send_header (U "Content-Type") (U "application/json") ;;
      end_headers ;;
      wfile_write body_bytes
  | TransportError e => raise e
  end.

(** [do_POST], the branch of an allowed host: build the request, add the
    headers, call. *)
Definition relay (url headers body : pyval) : M unit :=
  data <- request_data body ;;
  lift (Request_init lib url data) ;;
  hs <- items headers ;;
  let req := {| req_url := url;
                req_data := data;
                req_headers :=
                  hs ++ [(U "Accept-Encoding", VStr (U "identity"))] |} in
  emit (UrlOpen req 120) ;;
  respond (urlopen lib req 120).

Definition do_POST (rq : inbound) : M unit :=
  if negb (str_eqb (path rq) (U "/proxy")) then
    send_response 404 ;;
    end_headers
  else
    match json_loads lib (raw rq) with
    | JSONDecodeError =>
        send_response 400 ;;
        end_headers ;;
        wfile_write (Q "{'error':'Invalid JSON'}")
    | LoadsRaises e => raise e
    | Loaded payload =>
        url <- payload_get payload (U "url") (VStr []) ;;
        headers <- payload_get payload (U "headers") (VDict []) ;;
        body <- payload_get payload (U "body") (VStr []) ;;
        host <- lift (urlparse_hostname lib url) ;;
        if negb (host_allowed host) then reject host
        else relay url headers body
    end.

End Handler.

(** *** Reading a run *)

Definition trace {A} (m : M A) : list event := fst m.
Definition result {A} (m : M A) : outcome A := snd m.

(** The status line, the headers and the body that went out. *)
Definition status_of (t : list event) : option Z :=
  head (omap (fun ev => match ev with SendResponse c => Some c | _ => None end) t).

Definition headers_of (t : list event) : list (pystr * pystr) :=
  omap (fun ev => match ev with SendHeader k v => Some (k, v) | _ => None end) t.

Definition body_of (t : list event) : pybytes :=
  concat (omap (fun ev => match ev with WfileWrite b => Some b | _ => None end) t).

(** The calls made to [urlopen]. *)
Definition outbound_calls (t : list event) : list outbound :=
  omap (fun ev => match ev with UrlOpen rq _ => Some rq | _ => None end) t.

Definition cors : list (pystr * pystr) :=
  [ (U "Access-Control-Allow-Origin", U "*");
    (U "Access-Control-Allow-Methods", U "POST, OPTIONS");
    (U "Access-Control-Allow-Headers", U "Content-Type") ].

Definition cors_events : list event :=
  List.map (fun kv => SendHeader (fst kv) (snd kv)) cors.

(** The url, the headers and the body of a parsed payload, with the
    defaults of [payload.get]. *)
Definition payload_url (d : pydict pyval) : pyval :=
  default (VStr []) (dict_get d (U "url")).
Definition payload_headers (d : pydict pyval) : pyval :=
  default (VDict []) (dict_get d (U "headers")).
Definition payload_body (d : pydict pyval) : pyval :=
  default (VStr []) (dict_get d (U "body")).

(** The headers [forward_headers] sends for [Content-Type]. *)
Definition forwarded_type (getheader : pystr -> option pystr)
  : list (pystr * pystr) :=
  match getheader (U "Content-Type") with
  | Some val => if truthy val then [(U "Content-Type", val)] else []
  | None => []
  end.

End Proxy.

(* ================================================================== *)
(** ** The pricing refresh helper: [refresh.py] *)
(* ================================================================== *)

Module Refresh.
Import Py.

(** Provider pricing page URLs, in the order of the table. *)
Definition PRICING_URLS : pydict pystr :=
  [ (U "openai", U "https://openai.com/api/pricing/");
    (U "anthropic", U "https://docs.anthropic.com/en/docs/about-claude/models");
    (U "google", U "https://ai.google.dev/gemini-api/docs/pricing");
    (U "mistral", U "https://mistral.ai/pricing");
    (U "deepseek", U "https://api-docs.deepseek.com/quick_start/pricing");
    (U "cohere", U "https://cohere.com/pricing");
    (U "meta_fireworks", U "https://fireworks.ai/pricing") ].

(** *** Standard output

    A function that prints is a function that also returns its lines:
    writing a line to standard output is taken to succeed. *)
Definition W (A : Type) : Type := list pystr * A.

Definition wret {A} (a : A) : W A := ([], a).
Definition wbind {A B} (m : W A) (k : A -> W B) : W B :=
  let '(o, a) := m in let '(o', b) := k a in (o ++ o', b).
Definition print (line : pystr) : W unit := ([line], tt).

Declare Scope out_scope.
Delimit Scope out_scope with out.
Notation "x <- c1 ;; c2" := (wbind c1 (fun x => c2))
  (at level 100, c1 at next level, c2 at level 200, right associativity)
  : out_scope.
Notation "c1 ;; c2" := (wbind c1 (fun _ => c2))
  (at level 100, c2 at level 200, right associativity) : out_scope.
Open Scope out_scope.

(** A function that prints and can raise returns its lines and how it
    ended. *)
Definition P (A : Type) : Type := list pystr * outcome A.

Definition pret {A} (a : A) : P A := ([], Ret a).
Definition praise {A} (e : exn) : P A := ([], Raise e).
Definition pbind {A B} (m : P A) (k : A -> P B) : P B :=
  match m with
  | (o, Ret a) => let '(o', b) := k a in (o ++ o', b)
  | (o, Raise e) => (o, Raise e)
  end.
Definition wlift {A} (m : W A) : P A := (fst m, Ret (snd m)).

Declare Scope run_scope.
Delimit Scope run_scope with run.
Notation "x <- c1 ;; c2" := (pbind c1 (fun x => c2))
  (at level 100, c1 at next level, c2 at level 200, right associativity)
  : run_scope.
Notation "c1 ;; c2" := (pbind c1 (fun _ => c2))
  (at level 100, c2 at level 200, right associativity) : run_scope.

(** What [Request(url, headers=HEADERS)], [urlopen(req, timeout=timeout)]
    and [resp.read().decode("utf-8", errors="replace")] come to on a url:
    the text of the page; an exception of the classes that [fetch_url]
    catches ([URLError], [HTTPError], [OSError]), with its message; or any
    other exception, such as [http.client.BadStatusLine] or
    [http.client.IncompleteRead], or the [ValueError] of [Request], which
    [fetch_url] does not catch. *)
Inductive fetched :=
| Fetched (text : pystr)
| FetchFailed (message : pystr)
| FetchRaises (e : exn).

(** *** The data

    A model record is a dict of JSON values; the dataset holds the
    records in order, the date and whatever else the file has.  An update
    set maps a model name to the prices a parser found for it. *)
Definition record := pydict pyval.

(** The record objects of a dataset, by position. *)
Abbreviation store := (list record).

Record dataset := {
  models : list record;
  last_updated : pyval;
  extra : pydict pyval
}.

Definition updates := pydict (pydict pynum).

Definition nonempty {A} (l : list A) : bool :=
  match l with [] => false | _ => true end.

Section Run.

(** Which code points [str.isprintable] accepts. *)
Variable isprintable : Z -> bool.

(** The network, as [fetch_url] meets it. *)
Variable urlopen_read : pystr -> fetched.

(** [re.findall(price_pattern, html, re.IGNORECASE)] for the price
    pattern of the DeepSeek parser. *)
Variable findall_price : pystr -> list pystr.

Definition fetch_url (url : pystr) : P (option pystr) :=
  match urlopen_read url with
  | Fetched text => pret (Some text)
  | FetchFailed e =>
      (wlift (print (U "  [WARN] Failed to fetch " ++ url ++ U ": " ++ e)) ;;
       pret None)%run
  | FetchRaises e => praise e
  end.

(** *** Provider-specific parsers *)

Definition parse_openai (html : pystr) : W updates :=
  let results : updates := [] in
  print (U "  [INFO] OpenAI parser: page fetched, manual review recommended") ;;
  wret results.

Definition parse_anthropic (html : pystr) : W updates :=
  let results : updates := [] in
  print (U "  [INFO] Anthropic parser: page fetched, manual review recommended") ;;
  wret results.

Definition parse_google (html : pystr) : W updates :=
  let results : updates := [] in
  print (U "  [INFO] Google parser: page fetched, manual review recommended") ;;
  wret results.

Definition parse_mistral (html : pystr) : W updates :=
  let results : updates := [] in
  print (U "  [INFO] Mistral parser: page fetched, manual review recommended") ;;
  wret results.

Definition parse_deepseek (html : pystr) : W updates :=
  let results : updates := [] in
  let matches := findall_price html in
  (if nonempty matches then
     print (U "  [INFO] DeepSeek parser: found "
              ++ str_of_int (Z.of_nat (length matches))
              ++ U " price references, manual review recommended")
   else
     print (U "  [INFO] DeepSeek parser: page fetched, manual review recommended")) ;;
  wret results.

Definition parse_cohere (html : pystr) : W updates :=
  let results : updates := [] in
  print (U "  [INFO] Cohere parser: page fetched, manual review recommended") ;;
  wret results.

Definition parse_fireworks (html : pystr) : W updates :=
  let results : updates := [] in
  print (U "  [INFO] Fireworks parser: page fetched, manual review recommended") ;;
  wret results.

Definition PARSERS : pydict (pystr -> W updates) :=
  [ (U "openai", parse_openai);
    (U "anthropic", parse_anthropic);
    (U "google", parse_google);
    (U "mistral", parse_mistral);
    (U "deepseek", parse_deepseek);
    (U "cohere", parse_cohere);
    (U "meta_fireworks", parse_fireworks) ].

(** *** Merge

    [model_index] maps a model name to its record object; the object is
    the one in [data["models"]], so an assignment through the index
    changes the dataset.  Here a record object is its position in the
    list, and the list is the [store]. *)

(** [{m["model"]: m for m in data["models"]}]: a later record of the same
    name replaces an earlier one.  A record without the key is a
    [KeyError], a list or dict as name a [TypeError].  A name that is not
    a str is a key no str can equal; it is left out of the index, which
    is only asked for str names. *)
Fixpoint index_from (i : nat) (ms : store) (idx : pydict nat)
  : outcome (pydict nat) :=
  match ms with
  | [] => Ret idx
  | m :: rest =>
      match dict_get m (U "model") with
      | None => Raise KeyError
      | Some (VStr name) => index_from (S i) rest (dict_set idx name i)
      | Some (VList _) | Some (VDict _) => Raise TypeError
      | Some _ => index_from (S i) rest idx
      end
  end.

Definition model_index (ms : store) : outcome (pydict nat) :=
  index_from 0 ms [].

Definition price_fields : list pystr :=
  [U "input_per_mtok"; U "output_per_mtok"].

Definition change_line (model_name field : pystr) (old_val : pyval)
  (new : pynum) : pystr :=
  U "  " ++ model_name ++ U ": " ++ field ++ U " $"
    ++ py_str isprintable old_val ++ U " -> $"
    ++ py_str isprintable (num_val new).

Definition new_model_line (model_name : pystr) : pystr :=
  U "  NEW MODEL FOUND: " ++ model_name ++ U " (add manually to data.json)".

(** The body of [for field in ("input_per_mtok", "output_per_mtok")] for
    the record at [i]; [m.get(field)] is [None] for a field that is not
    there. *)
Definition merge_field (model_name : pystr) (new_prices : pydict pynum)
  (i : nat) (st : store * list pystr) (field : pystr)
  : store * list pystr :=
  let '(ms, changes) := st in
  match dict_get new_prices field, ms !! i with
  | Some new, Some m =>
      if num_ne new (default VNone (dict_get m field)) then
        let old_val := default VNone (dict_get m field) in
        (<[i := dict_set m field (num_val new)]> ms,
         changes ++ [change_line model_name field old_val new])
      else st
  | _, _ => st
  end.

(** The body of [for model_name, new_prices in updates.items()]. *)
Definition merge_entry (idx : pydict nat) (st : store * list pystr)
  (entry : pystr * pydict pynum) : store * list pystr :=
  let '(model_name, new_prices) := entry in
  match dict_get idx model_name with
  | Some i => fold_left (merge_field model_name new_prices i) price_fields st
  | None => (fst st, snd st ++ [new_model_line model_name])
  end.

(** [merge_updates(data, updates)] changes [data] in place and returns
    the change descriptions: the result is the dataset afterwards and
    what was returned or raised. *)
Definition merge_updates (data : dataset) (upd : updates)
  : dataset * outcome (list pystr) :=
  match model_index (models data) with
  | Raise e => (data, Raise e)
  | Ret idx =>
      let '(ms, changes) := fold_left (merge_entry idx) upd (models data, []) in
      ({| models := ms;
          last_updated := last_updated data;
          extra := extra data |},
       Ret changes)
  end.

(** Whether some record of the store has this model name. *)
Definition known (ms : store) (model_name : pystr) : bool :=
  existsb (fun m => match dict_get m (U "model") with
                    | Some (VStr name) => str_eqb name model_name
                    | _ => false
                    end) ms.

(** The notices for the names of an update set that no record has. *)
Definition new_model_notices (ms : store) (upd : updates) : list pystr :=
  List.map new_model_line
    (List.filter (fun name => negb (known ms name)) (List.map fst upd)).

(** *** The run

    The two steps of [main] that deal with prices.  What [main] does
    around them (loading the file, the date, [print_diff], [save_data])
    is not modelled. *)

(** [main], the loop over [PRICING_URLS].  An exception that leaves
    [fetch_url] leaves the loop, and [main], with it. *)
Fixpoint fetch_and_parse (urls : pydict pystr) (all_updates : updates)
  : P updates :=
  match urls with
  | [] => pret all_updates
  | (provider, url) :: rest =>
      (wlift (print (U "Fetching " ++ provider ++ U "...")) ;;
       html <- fetch_url url ;;
       match html with
       | None => fetch_and_parse rest all_updates
       | Some text =>
           match dict_get PARSERS provider with
           | Some parser =>
               upd <- wlift (parser text) ;;
               let all_updates := dict_update all_updates upd in
               wlift (if nonempty upd then
                        print (U "  Found "
                                 ++ str_of_int (Z.of_nat (length upd))
                                 ++ U " model price updates")
                      else wret tt) ;;
               fetch_and_parse rest all_updates
           | None => fetch_and_parse rest all_updates
           end
       end)%run
  end.

(** [for c in changes: print(c)]. *)
Fixpoint print_each (lines : list pystr) : W unit :=
  match lines with
  | [] => wret tt
  | c :: rest => print c ;; print_each rest
  end.

(** [main], from the empty line after the loop to the end of the
    [if all_updates:] statement: the dataset as the step leaves it, or
    the exception of [merge_updates]. *)
Definition merge_step (data : dataset) (all_updates : updates) : P dataset :=
  (wlift (print []) ;;
   if nonempty all_updates then
     let '(data, merged) := merge_updates data all_updates in
     match merged with
     | Raise e => praise e
     | Ret changes =>
         wlift (if nonempty changes then
                  (print (U "Changes detected:") ;;
                   print_each changes)%out
                else print (U "No price changes to apply.")) ;;
         pret data
     end
   else
     wlift (print (U "No automated price updates extracted.") ;;
            print (U "(This is normal " ++ [8212]
                     ++ U " most providers use dynamic JS rendering.)") ;;
            print (U "Tip: Update data.json manually when you see price changes."))%out ;;
     pret data)%run.

End Run.

(** *** Notions for the properties *)

(** An index is sound for a store when each name leads to a record of
    that name. *)
Definition index_sound (ms : store) (idx : pydict nat) : Prop :=
  forall name i,
    dict_get idx name = Some i ->
    exists m, ms !! i = Some m /\ dict_get m (U "model") = Some (VStr name).

(** Two records agree outside of the two price fields. *)
Definition same_other_fields (m m' : record) : Prop :=
  forall field,
    field <> U "input_per_mtok" -> field <> U "output_per_mtok" ->
    dict_get m' field = dict_get m field.

(** Two stores agree, record by record, outside of the price fields. *)
Definition frame (ms ms' : store) : Prop := Forall2 same_other_fields ms ms'.

(** A field of the record at [i] is settled for [prices] when the price
    for it, if there is one, would not be written, or is what is there. *)
Definition settled_field (ms : store) (i : nat) (prices : pydict pynum)
  (field : pystr) : Prop :=
  forall m new,
    ms !! i = Some m -> dict_get prices field = Some new ->
    num_ne new (default VNone (dict_get m field)) = false
    \/ dict_get m field = Some (num_val new).

(** No price of the update set is [nan]. *)
Definition no_nan (upd : updates) : Prop :=
  forall name prices field new,
    In (name, prices) upd -> dict_get prices field = Some new ->
    num_is_nan new = false.

(** The notices for the names an index does not have. *)
Definition notices_of (idx : pydict nat) (upd : updates) : list pystr :=
  List.map new_model_line
    (List.filter (fun name => negb (dict_mem idx name)) (List.map fst upd)).

End Refresh.

(* ================================================================== *)
(** ** Scenarios *)
(* ================================================================== *)

(** A scripted standard library and a small dataset, on which the
    statements below are run. *)
Module Scenario.
Import Py Proxy Refresh.

Definition openai_url : pystr := U "https://api.openai.com/v1/x".
Definition missing_url : pystr := U "https://api.openai.com/v1/missing".
Definition blank_url : pystr := U "https://api.openai.com/v1/blank".
Definition evil_url : pystr := U "https://evil.example.com/x".

Definition payload_for (url : pystr) : pyval :=
  VDict [ (U "url", VStr url);
          (U "headers", VDict []);
          (U "body", VStr (U "{}")) ].

(** The request body as the page sends it. *)
Definition raw_for (url : pystr) : pybytes :=
  Q "{'url':'" ++ url ++ Q "','headers':{},'body':'{}'}".

Definition scripted_loads (raw : pybytes) : loads_result :=
  if str_eqb raw (raw_for openai_url) then Loaded (payload_for openai_url)
  else if str_eqb raw (raw_for missing_url) then Loaded (payload_for missing_url)
  else if str_eqb raw (raw_for blank_url) then Loaded (payload_for blank_url)
  else if str_eqb raw (raw_for evil_url) then Loaded (payload_for evil_url)
  else if str_eqb raw (U "{}") then Loaded (VDict [])
  else JSONDecodeError.

Definition scripted_hostname (url : pyval) : outcome (option pystr) :=
  match url with
  | VStr s =>
      if str_eqb s evil_url then Ret (Some (U "evil.example.com"))
      else if nonempty s then Ret (Some (U "api.openai.com"))
      else Ret None
  | _ => Raise AttributeError
  end.

Definition json_type (key : pystr) : option pystr :=
  if str_eqb key (U "Content-Type") then Some (U "application/json") else None.

Definition blank_type (key : pystr) : option pystr :=
  if str_eqb key (U "Content-Type") then Some [] else None.

Definition scripted_urlopen (req : outbound) (timeout : Z) : upstream :=
  match req_url req with
  | VStr s =>
      if str_eqb s openai_url then Response 200 json_type (Q "{'ok':true}")
      else if str_eqb s blank_url then Response 200 blank_type (U "ok")
      else HTTPError 404 (Q "{'error':'no such route'}")
  | _ => TransportError (OtherError "URLError")
  end.

Definition scripted : stdlib :=
  {| json_loads := scripted_loads;
     urlparse_hostname := scripted_hostname;
     Request_init := fun _ _ => Ret tt;
     urlopen := scripted_urlopen |}.

Definition post (body : pybytes) : inbound :=
  {| path := U "/proxy"; raw := body |}.

(** The call the handler makes for [payload_for url]. *)
Definition call_for (url : pystr) : outbound :=
  {| req_url := VStr url;
     req_data := U "{}";
     req_headers := [(U "Accept-Encoding", VStr (U "identity"))] |}.

(** A dataset of two records, and the update of the specification's
    example. *)
Definition gpt_4o : record :=
  [ (U "model", VStr (U "gpt-4o"));
    (U "provider", VStr (U "OpenAI"));
    (U "input_per_mtok", VFloat 2.5);
    (U "output_per_mtok", VFloat 10);
    (U "context_window", VInt 128000);
    (U "tags", VList [VStr (U "multimodal")]) ].

Definition claude : record :=
  [ (U "model", VStr (U "claude-sonnet"));
    (U "input_per_mtok", VInt 3);
    (U "output_per_mtok", VInt 15) ].

Definition sample_data : dataset :=
  {| models := [gpt_4o; claude];
     last_updated := VStr (U "2025-01-01");
     extra := [] |}.

Definition price_cut : updates :=
  [ (U "gpt-4o", [(U "input_per_mtok", NFloat 2)]) ].

Definition unknown_model : updates :=
  [ (U "gpt-5", [(U "input_per_mtok", NFloat 1)]) ].

Definition nan_price : updates :=
  [ (U "gpt-4o", [(U "input_per_mtok", NFloat nan)]) ].

Definition ascii_printable (c : Z) : bool := (32 <=? c) && (c <? 127).

Definition no_network (url : pystr) : fetched :=
  FetchFailed (U "<urlopen error>").

Definition no_match (html : pystr) : list pystr := [].

End Scenario.

(* ================================================================== *)
(** ** The relay proxy: reading the request *)
(* ================================================================== *)

(** The head of [do_POST]: the path test, the [Content-Length] header and
    the read of the body, before [json.loads]. *)
Module ProxyWire.
Import Py Proxy.

(** A POST as it arrives: the path, the value of the [Content-Length]
    header when the request has one, and the bytes the client sends on
    the connection before it stops. *)
Record wire := {
  wire_path : pystr;
  content_length : option pystr;
  wire_body : pybytes
}.

(** [self.rfile.read(length)] on a buffered reader: up to [length]
    bytes, everything for -1, and a [ValueError] below -1. *)
Definition rfile_read (stream : pybytes) (length : Z) : M pybytes :=
  if length <? -1 then raise (OtherError "ValueError")
  else if length =? -1 then ret stream
  else ret (take (Z.to_nat length) stream).

Section Read.

Variable lib : stdlib.

(** [int(s)] on the text of a header. *)
Variable py_int : pystr -> outcome Z.

(** [int(self.headers.get("Content-Length", 0))] *)
Definition read_length (w : wire) : M Z :=
  match content_length w with
  | Some s => lift (py_int s)
  | None => ret 0
  end.

(** [do_POST] from its first line. *)
Definition do_POST_wire (w : wire) : M unit :=
  if negb (str_eqb (wire_path w) (U "/proxy")) then
    send_response 404 ;;
    end_headers
  else
    length <- read_length w ;;
    raw <- rfile_read (wire_body w) length ;;
    do_POST lib {| path := wire_path w; raw := raw |}.

End Read.

(** What went out on the connection: the run without its calls to
    [urlopen]. *)
Definition sent (t : list event) : list event :=
  List.filter (fun ev => match ev with UrlOpen _ _ => false | _ => true end) t.

Definition accept_identity : pystr * pyval :=
  (U "Accept-Encoding", VStr (U "identity")).

End ProxyWire.

(** Notions for the further properties of the merge. *)
Module MergeNotions.
Import Py Refresh.

(** A step either leaves the state as it is or adds lines. *)
Definition grows (st st' : store * list pystr) : Prop :=
  st' = st \/ exists added, added <> [] /\ snd st' = snd st ++ added.

(** The line of the loop of [main] for a provider. *)
Definition fetching_line (provider : pystr) : pystr :=
  U "Fetching " ++ provider ++ U "...".

(** The line that follows it: the warning of [fetch_url] when the fetch
    failed, else the one line the provider's parser prints. *)
Definition second_line (urlopen_read : pystr -> fetched)
  (findall : pystr -> list pystr) (pu : pystr * pystr) (line : pystr)
  : Prop :=
  (exists e,
     urlopen_read (snd pu) = FetchFailed e
     /\ line = U "  [WARN] Failed to fetch " ++ snd pu ++ U ": " ++ e)
  \/ (exists text parser,
        urlopen_read (snd pu) = Fetched text
        /\ dict_get (PARSERS findall) (fst pu) = Some parser
        /\ fst (parser text) = [line]).

(** The fetch ends within [fetch_url]: with the page, or with an
    exception of the classes it catches. *)
Definition caught (r : fetched) : bool :=
  match r with
  | FetchRaises _ => false
  | _ => true
  end.

(** The lines of the loop for the providers [urls], given the second
    line of each. *)
Definition loop_lines (urls : pydict pystr) (seconds : list pystr)
  : list pystr :=
  concat (zip_with (fun f l => [f; l])
            (List.map (fun pu => fetching_line (fst pu)) urls)
            seconds).

End MergeNotions.

(** More scenarios: payloads that are no object, that have only a url,
    a target that is down, and datasets with a repeated and with a
    missing name. *)
Module Scenario2.
Import Py Proxy Refresh Scenario.

Definition down_url : pystr := U "https://api.openai.com/v1/down".

Definition url_only (url : pystr) : pyval := VDict [(U "url", VStr url)].

Definition raw_url_only (url : pystr) : pybytes :=
  Q "{'url':'" ++ url ++ Q "'}".

Definition null_headers : pyval :=
  VDict [(U "url", VStr openai_url); (U "headers", VNone)].

Definition raw_null_headers : pybytes :=
  Q "{'url':'" ++ openai_url ++ Q "','headers':null}".

Definition scripted_loads2 (raw : pybytes) : loads_result :=
  if str_eqb raw (U "[1]") then Loaded (VList [VInt 1])
  else if str_eqb raw (raw_url_only openai_url) then Loaded (url_only openai_url)
  else if str_eqb raw (raw_url_only down_url) then Loaded (url_only down_url)
  else if str_eqb raw raw_null_headers then Loaded null_headers
  else scripted_loads raw.

Definition scripted_urlopen2 (req : outbound) (timeout : Z) : upstream :=
  match req_url req with
  | VStr s =>
      if str_eqb s down_url then TransportError (OtherError "URLError")
      else scripted_urlopen req timeout
  | _ => scripted_urlopen req timeout
  end.

Definition scripted2 : stdlib :=
  {| json_loads := scripted_loads2;
     urlparse_hostname := scripted_hostname;
     Request_init := fun _ _ => Ret tt;
     urlopen := scripted_urlopen2 |}.

(** Decimal digits only. *)
Definition digits_int (s : pystr) : outcome Z :=
  if nonempty s && forallb (fun c => (48 <=? c) && (c <=? 57)) s
  then Ret (fold_left (fun acc c => 10 * acc + (c - 48)) s 0)
  else Raise (OtherError "ValueError").

(** Two records of one name, the older one first. *)
Definition old_gpt_4o : record :=
  [ (U "model", VStr (U "gpt-4o"));
    (U "input_per_mtok", VFloat 5);
    (U "notes", VStr (U "superseded")) ].

Definition twins : dataset :=
  {| models := [old_gpt_4o; claude; gpt_4o];
     last_updated := VStr (U "2025-01-01");
     extra := [] |}.

(** A record without a name. *)
Definition nameless : record := [ (U "input_per_mtok", VFloat 1) ].

Definition broken : dataset :=
  {| models := [gpt_4o; nameless];
     last_updated := VStr (U "2025-01-01");
     extra := [] |}.

(** A price that is the stored one, as a float where an int is stored. *)
Definition same_price : updates :=
  [ (U "claude-sonnet", [(U "input_per_mtok", NFloat 3)]) ].

Definition two_prices : updates :=
  [ (U "gpt-4o", [(U "input_per_mtok", NFloat 2);
                  (U "output_per_mtok", NFloat 8)]) ].

End Scenario2.

(** Scenarios at the edges of the standard library: a body that is not
    text, a body with [NaN], urls that [urlparse] refuses, and networks
    on which some fetches fail. *)
Module Scenario3.
Import Py Proxy Refresh Scenario Scenario2.

(** The one byte [0x80], which is not UTF-8. *)
Definition undecodable : pybytes := [128].

Definition nan_body : pyval :=
  VDict [(U "url", VStr openai_url); (U "body", VFloat nan)].

Definition raw_nan_body : pybytes :=
  Q "{'url':'" ++ openai_url ++ Q "','body':NaN}".

(** An IPv6 host without its closing bracket. *)
Definition bracket_url : pystr := U "http://[::1".

Definition number_url : pyval := VDict [(U "url", VInt 5)].

Definition raw_number_url : pybytes := Q "{'url':5}".

(** [json.loads] raises [UnicodeDecodeError] on bytes it cannot decode,
    and reads [NaN] as a float. *)
Definition scripted_loads3 (raw : pybytes) : loads_result :=
  if str_eqb raw undecodable then LoadsRaises (OtherError "UnicodeDecodeError")
  else if str_eqb raw raw_nan_body then Loaded nan_body
  else if str_eqb raw (raw_url_only bracket_url)
       then Loaded (url_only bracket_url)
  else if str_eqb raw raw_number_url then Loaded number_url
  else scripted_loads2 raw.

(** [urlparse] raises [ValueError] on the url with the open bracket. *)
Definition scripted_hostname3 (url : pyval) : outcome (option pystr) :=
  match url with
  | VStr s =>
      if str_eqb s bracket_url then Raise (OtherError "ValueError")
      else scripted_hostname url
  | _ => scripted_hostname url
  end.

Definition scripted3 : stdlib :=
  {| json_loads := scripted_loads3;
     urlparse_hostname := scripted_hostname3;
     Request_init := fun _ _ => Ret tt;
     urlopen := scripted_urlopen2 |}.

(** The call the handler makes for [nan_body]. *)
Definition nan_call : outbound :=
  {| req_url := VStr openai_url;
     req_data := U "NaN";
     req_headers := [(U "Accept-Encoding", VStr (U "identity"))] |}.

(** A network on which one page is served and the others time out. *)
Definition patchy_network (url : pystr) : fetched :=
  if str_eqb url (U "https://mistral.ai/pricing")
  then Fetched (U "<html></html>")
  else FetchFailed (U "<urlopen error timed out>").

(** The same, with a server that answers the third fetch with a status
    line that is none. *)
Definition garbled_network (url : pystr) : fetched :=
  if str_eqb url (U "https://ai.google.dev/gemini-api/docs/pricing")
  then FetchRaises (OtherError "BadStatusLine")
  else patchy_network url.

End Scenario3.

(* ================================================================== *)
(** ** Facts about the Python values *)
(* ================================================================== *)

Module PyFacts.
Import Py.

Lemma str_eqb_eq (a b : pystr) : str_eqb a b = true <-> a = b.
Proof. unfold str_eqb. apply bool_decide_eq_true. Qed.

Lemma str_eqb_refl (a : pystr) : str_eqb a a = true.
Proof. now apply str_eqb_eq. Qed.

Lemma str_eqb_neq (a b : pystr) : str_eqb a b = false <-> a <> b.
Proof. unfold str_eqb. apply bool_decide_eq_false. Qed.

(** **** Dicts *)

Lemma dict_get_set_eq {V} (d : pydict V) k v :
  dict_get (dict_set d k v) k = Some v.
Proof.
  induction d as [|[k' v'] d IH]; simpl.
  - now rewrite str_eqb_refl.
  - destruct (str_eqb k' k) eqn:E; simpl; rewrite E; auto.
Qed.

Lemma dict_get_set_ne {V} (d : pydict V) k k' v :
  k <> k' -> dict_get (dict_set d k v) k' = dict_get d k'.
Proof.
  intros Hne. induction d as [|[k0 v0] d IH]; simpl.
  - destruct (str_eqb k k') eqn:E; auto.
    apply str_eqb_eq in E. contradiction.
  - destruct (str_eqb k0 k) eqn:E; simpl.
    + apply str_eqb_eq in E. subst k0.
      destruct (str_eqb k k') eqn:E'; auto.
      apply str_eqb_eq in E'. contradiction.
    + destruct (str_eqb k0 k'); auto.
Qed.

Lemma dict_set_same {V} (d : pydict V) k v :
  dict_get d k = Some v -> dict_set d k v = d.
Proof.
  induction d as [|[k' v'] d IH]; simpl; [discriminate|].
  destruct (str_eqb k' k) eqn:E.
  - now intros [= ->].
  - intros H. now rewrite IH.
Qed.

Lemma dict_mem_set {V} (d : pydict V) k v k' :
  dict_mem (dict_set d k v) k' = str_eqb k k' || dict_mem d k'.
Proof.
  unfold dict_mem. destruct (str_eqb k k') eqn:E.
  - apply str_eqb_eq in E. subst k'. now rewrite dict_get_set_eq.
  - apply str_eqb_neq in E. now rewrite dict_get_set_ne.
Qed.

(** **** Text that is ASCII encodes to itself *)

Lemma all_ascii_app (a b : pystr) :
  all_ascii (a ++ b) = all_ascii a && all_ascii b.
Proof. apply forallb_app. Qed.

Lemma utf8_char_ascii (c : Z) : is_ascii c = true -> utf8_char c = Some [c].
Proof.
  unfold is_ascii, utf8_char. intros H.
  apply andb_true_iff in H as [H0 H1].
  apply Z.leb_le in H0. apply Z.ltb_lt in H1.
  destruct (c <? 0) eqn:E0; [apply Z.ltb_lt in E0; lia|].
  destruct (c <? 128) eqn:E1; [reflexivity|apply Z.ltb_ge in E1; lia].
Qed.

Lemma encode_utf8_ascii (s : pystr) :
  all_ascii s = true -> encode_utf8 s = Some s.
Proof.
  induction s as [|c s IH]; simpl; intros H; [reflexivity|].
  apply andb_true_iff in H as [Hc Hs].
  rewrite (utf8_char_ascii c Hc), (IH Hs). reflexivity.
Qed.

Lemma hex_digit_ascii (n : Z) : 0 <= n < 16 -> is_ascii (hex_digit n) = true.
Proof.
  intros H. unfold is_ascii, hex_digit.
  destruct (n <? 10); apply andb_true_iff; split;
    first [apply Z.leb_le | apply Z.ltb_lt]; lia.
Qed.

Lemma nibble_range (x : Z) : 0 <= Z.land x 15 < 16.
Proof.
  change 15 with (Z.ones 4). rewrite Z.land_ones by lia.
  apply Z.mod_pos_bound. lia.
Qed.

Lemma hex_fixed_ascii (w : nat) (c : Z) : all_ascii (hex_fixed w c) = true.
Proof.
  induction w as [|w IH]; [reflexivity|].
  cbn [hex_fixed all_ascii forallb]. fold (all_ascii (hex_fixed w c)).
  rewrite IH, hex_digit_ascii by apply nibble_range. reflexivity.
Qed.

Lemma json_escape_char_ascii (c : Z) : all_ascii (json_escape_char c) = true.
Proof.
  unfold json_escape_char.
  repeat match goal with
         | |- context [if ?b then _ else _] => destruct b eqn:?
         end;
    rewrite ?all_ascii_app, ?hex_fixed_ascii; try reflexivity.
  match goal with
  | H : (32 <=? c) && (c <=? 126) = true |- _ =>
      apply andb_true_iff in H as [H0 H1];
      apply Z.leb_le in H0; apply Z.leb_le in H1
  end.
  cbn [all_ascii forallb]. unfold is_ascii.
  rewrite andb_true_r. apply andb_true_iff; split;
    [apply Z.leb_le | apply Z.ltb_lt]; lia.
Qed.

Lemma json_string_ascii (s : pystr) : all_ascii (json_string s) = true.
Proof.
  unfold json_string. cbn [all_ascii forallb].
  fold (all_ascii (concat (List.map json_escape_char s) ++ [dquote])).
  rewrite all_ascii_app. simpl (is_ascii dquote).
  cut (all_ascii (concat (List.map json_escape_char s)) = true).
  { intros ->. reflexivity. }
  induction s as [|c s IH]; [reflexivity|].
  cbn [List.map concat]. rewrite all_ascii_app, json_escape_char_ascii, IH.
  reflexivity.
Qed.

(** The body of the 403 response is ASCII whatever the host is. *)
Lemma error_body_ascii (msg : pystr) :
  all_ascii (json_dumps (VDict [(U "error", VStr msg)])) = true.
Proof.
  cbn [json_dumps List.map join concat].
  rewrite !all_ascii_app, !json_string_ascii. reflexivity.
Qed.

(** **** What the built-ins print *)

Example float_repr_values :
  float_repr 2.5 = U "2.5"
  /\ float_repr 2 = U "2.0"
  /\ float_repr 10 = U "10.0"
  /\ float_repr 0x1.999999999999ap-4 = U "0.1"
  /\ float_repr 0x1.3333333333334p-2 = U "0.30000000000000004"
  /\ float_repr 1e15 = U "1000000000000000.0"
  /\ float_repr 1e16 = U "1e+16"
  /\ float_repr 0x1.4f8b588e368f1p-17 = U "1e-05"
  /\ float_repr (-0.125) = U "-0.125"
  /\ float_repr nan = U "nan"
  /\ float_repr infinity = U "inf".
Proof. repeat split; vm_compute; reflexivity. Qed.

Example json_dumps_value :
  json_dumps (VDict [ (U "ok", VBool true);
                      (U "n", VList [VInt (-1); VFloat 2.5; VNone]);
                      (U "s", VStr [233; 10]) ])
  = Q "{'ok': true, 'n': [-1, 2.5, null], 's': '\u00e9\n'}".
Proof. vm_compute. reflexivity. Qed.

Example num_ne_values :
  num_ne (NInt 2) (VFloat 2) = false
  /\ num_ne (NFloat 2) (VFloat 2.5) = true
  /\ num_ne (NFloat 2) VNone = true
  /\ num_ne (NFloat nan) (VFloat nan) = true.
Proof. repeat split. Qed.

(** **** A number that is not [nan] equals itself *)

Lemma num_ne_self (n : pynum) :
  num_is_nan n = false -> num_ne n (num_val n) = false.
Proof.
  destruct n as [z|f]; simpl; intros H.
  - now rewrite Z.eqb_refl.
  - unfold PrimFloat.is_nan in H. apply negb_false_iff in H.
    now rewrite H.
Qed.

End PyFacts.

(* ================================================================== *)
(** ** The relay proxy: properties *)
(* ================================================================== *)

Module ProxyProofs.
Import Py Proxy PyFacts.

(** *** The monad *)

Lemma bind_ret_l {A B} (a : A) (k : A -> M B) : bind (ret a) k = k a.
Proof. unfold bind, ret. destruct (k a). reflexivity. Qed.

Lemma bind_lift_ret {A B} (a : A) (k : A -> M B) : bind (lift (Ret a)) k = k a.
Proof. apply bind_ret_l. Qed.

Lemma bind_lift_raise {A B} (e : exn) (k : A -> M B) :
  bind (lift (Raise e)) k = raise e.
Proof. reflexivity. Qed.

Lemma bind_raise {A B} (e : exn) (k : A -> M B) : bind (raise e) k = raise e.
Proof. reflexivity. Qed.

Lemma bind_emit {B} (ev : event) (m : M B) :
  bind (emit ev) (fun _ => m) = (ev :: trace m, result m).
Proof. destruct m. reflexivity. Qed.

(** *** The allowlist *)

Lemma host_allowed_false (host : option pystr) :
  (forall h, host = Some h -> ~ In h ALLOWED_HOSTS) ->
  host_allowed host = false.
Proof.
  intros H. destruct host as [h|]; [|reflexivity].
  unfold host_allowed. destruct (existsb (str_eqb h) ALLOWED_HOSTS) eqn:E; auto.
  apply existsb_exists in E as (a & Ha & Heq).
  apply str_eqb_eq in Heq. subst a. exfalso. exact (H h eq_refl Ha).
Qed.

Lemma host_allowed_true (host : option pystr) :
  host_allowed host = true <-> exists h, host = Some h /\ In h ALLOWED_HOSTS.
Proof.
  split.
  - destruct host as [h|]; [|discriminate]. unfold host_allowed. intros E.
    apply existsb_exists in E as (a & Ha & Heq).
    apply str_eqb_eq in Heq. subst a. eauto.
  - intros (h & -> & Hin). apply existsb_exists. exists h.
    split; [assumption | apply str_eqb_refl].
Qed.

(** *** The branches of [do_POST] *)

Lemma reject_run (host : option pystr) :
  reject host =
    (SendResponse 403 :: cors_events
       ++ [ EndHeaders;
            WfileWrite (json_dumps
                          (VDict [(U "error",
                                   VStr (U "Host not allowed: "
                                           ++ host_str host))])) ],
     Ret tt).
Proof.
  unfold reject, encode.
  rewrite encode_utf8_ascii by apply error_body_ascii.
  reflexivity.
Qed.

Lemma respond_response status getheader resp_body :
  respond (Response status getheader resp_body) =
    (SendResponse status :: cors_events
       ++ List.map (fun kv => SendHeader (fst kv) (snd kv))
            (forwarded_type getheader)
       ++ [EndHeaders; WfileWrite resp_body],
     Ret tt).
Proof.
  unfold respond, forwarded_type. cbn [forward_headers].
  destruct (getheader (U "Content-Type")) as [val|]; [destruct val|];
    reflexivity.
Qed.

Lemma respond_error code body_bytes :
  respond (HTTPError code body_bytes) =
    (SendResponse code :: cors_events
       ++ [ SendHeader (U "Content-Type") (U "application/json");
            EndHeaders; WfileWrite body_bytes ],
     Ret tt).
Proof. reflexivity. Qed.

(** [respond] makes no call. *)
Lemma respond_no_call (up : upstream) (call : outbound) (timeout : Z) :
  ~ In (UrlOpen call timeout) (trace (respond up)).
Proof.
  destruct up as [status getheader resp_body | code body_bytes | e].
  - rewrite respond_response. unfold forwarded_type.
    destruct (getheader (U "Content-Type")) as [val|]; [destruct val|];
      cbn; intuition discriminate.
  - rewrite respond_error. cbn. intuition discriminate.
  - cbn. tauto.
Qed.

(** [relay] raises before any effect, or makes one call and responds to
    what came back. *)
Lemma relay_cases (lib : stdlib) (url headers body : pyval) :
  (exists e, relay lib url headers body = ([], Raise e)) \/
  (exists data hs,
     let call := {| req_url := url; req_data := data;
                    req_headers :=
                      hs ++ [(U "Accept-Encoding", VStr (U "identity"))] |} in
     headers = VDict hs /\
     relay lib url headers body =
       (UrlOpen call 120 :: trace (respond (urlopen lib call 120)),
        result (respond (urlopen lib call 120)))).
Proof.
  unfold relay.
  assert (Hd : (exists data, request_data body = ret data) \/
               request_data body = raise UnicodeEncodeError).
  { unfold request_data, encode.
    destruct body; try (destruct (encode_utf8 _); eauto). }
  destruct Hd as [[data ->] | ->]; [|left; eexists; reflexivity].
  rewrite bind_ret_l.
  destruct (Request_init lib url data) as [[]|e];
    [rewrite bind_lift_ret | left; eexists; reflexivity].
  destruct headers as [| | | | |? |hs];
    try (left; eexists; reflexivity).
  right. exists data, hs. cbn zeta. split; [reflexivity|].
  cbn [items]. rewrite bind_ret_l. apply bind_emit.
Qed.

(** [do_POST] on a request to [/proxy] whose body parsed to a dict and
    whose url parsed. *)
Lemma do_POST_parsed (lib : stdlib) (rq : inbound) (d : pydict pyval)
  (host : option pystr) :
  path rq = U "/proxy" ->
  json_loads lib (raw rq) = Loaded (VDict d) ->
  urlparse_hostname lib (payload_url d) = Ret host ->
  do_POST lib rq =
    if host_allowed host
    then relay lib (payload_url d) (payload_headers d) (payload_body d)
    else reject host.
Proof.
  intros Hpath Hloads Hhost. unfold do_POST.
  rewrite Hpath, str_eqb_refl, Hloads. cbn [negb payload_get].
  rewrite !bind_ret_l. fold (payload_url d). rewrite Hhost, bind_lift_ret.
  destruct (host_allowed host); reflexivity.
Qed.

Lemma do_POST_malformed (lib : stdlib) (rq : inbound) :
  path rq = U "/proxy" ->
  json_loads lib (raw rq) = JSONDecodeError ->
  do_POST lib rq =
    ([SendResponse 400; EndHeaders; WfileWrite (Q "{'error':'Invalid JSON'}")],
     Ret tt).
Proof.
  intros Hpath Hloads. unfold do_POST.
  rewrite Hpath, str_eqb_refl, Hloads. reflexivity.
Qed.

(** Every way [do_POST] can go. *)
Lemma do_POST_cases (lib : stdlib) (rq : inbound) :
  (path rq <> U "/proxy" /\
   do_POST lib rq = ([SendResponse 404; EndHeaders], Ret tt)) \/
  (path rq = U "/proxy" /\ json_loads lib (raw rq) = JSONDecodeError) \/
  (exists e, do_POST lib rq = ([], Raise e)) \/
  (exists d host,
     path rq = U "/proxy" /\
     json_loads lib (raw rq) = Loaded (VDict d) /\
     urlparse_hostname lib (payload_url d) = Ret host /\
     ((host_allowed host = false /\ do_POST lib rq = reject host) \/
      (host_allowed host = true /\
       do_POST lib rq =
         relay lib (payload_url d) (payload_headers d) (payload_body d)))).
Proof.
  destruct (str_eqb (path rq) (U "/proxy")) eqn:Hp.
  - apply str_eqb_eq in Hp. right.
    destruct (json_loads lib (raw rq)) as [payload| |e] eqn:Hl.
    + right.
      assert (Hnd : (exists d, payload = VDict d) \/
                    do_POST lib rq = ([], Raise AttributeError)).
      { unfold do_POST. rewrite Hp, str_eqb_refl, Hl. cbn [negb].
        destruct payload; eauto. }
      destruct Hnd as [[d ->] | Hr]; [|left; eauto].
      destruct (urlparse_hostname lib (payload_url d)) as [host|e] eqn:Hh.
      * pose proof (do_POST_parsed lib rq d host Hp Hl Hh) as H.
        right. exists d, host. repeat split; try assumption.
        destruct (host_allowed host); [right | left]; auto.
      * left. exists e. unfold do_POST.
        rewrite Hp, str_eqb_refl, Hl. cbn [negb payload_get].
        rewrite !bind_ret_l. fold (payload_url d). rewrite Hh. reflexivity.
    + left. auto.
    + right. left. exists e. unfold do_POST.
      rewrite Hp, str_eqb_refl, Hl. reflexivity.
  - left. split.
    + now apply str_eqb_neq.
    + unfold do_POST. rewrite Hp. reflexivity.
Qed.

(** *** Reading a run *)

Lemma headers_of_app (s t : list event) :
  headers_of (s ++ t) = headers_of s ++ headers_of t.
Proof. apply omap_app. Qed.

Lemma body_of_app (s t : list event) :
  body_of (s ++ t) = body_of s ++ body_of t.
Proof. unfold body_of. rewrite omap_app. apply concat_app. Qed.

Lemma outbound_calls_app (s t : list event) :
  outbound_calls (s ++ t) = outbound_calls s ++ outbound_calls t.
Proof. apply omap_app. Qed.

Lemma headers_of_sent (hs : list (pystr * pystr)) :
  headers_of (List.map (fun kv => SendHeader (fst kv) (snd kv)) hs) = hs.
Proof.
  induction hs as [|[k v] hs IH]; [reflexivity|].
  cbn. unfold headers_of in IH. now rewrite IH.
Qed.

Lemma body_of_sent (hs : list (pystr * pystr)) :
  body_of (List.map (fun kv => SendHeader (fst kv) (snd kv)) hs) = [].
Proof. induction hs as [|[k v] hs IH]; [reflexivity|exact IH]. Qed.

Lemma outbound_calls_sent (hs : list (pystr * pystr)) :
  outbound_calls (List.map (fun kv => SendHeader (fst kv) (snd kv)) hs) = [].
Proof. induction hs as [|[k v] hs IH]; [reflexivity|exact IH]. Qed.

(** The status, headers and body of a relayed response. *)
Lemma relayed_response_read call status getheader resp_body :
  let t := UrlOpen call 120
             :: trace (respond (Response status getheader resp_body)) in
  status_of t = Some status /\
  headers_of t = cors ++ forwarded_type getheader /\
  body_of t = resp_body /\
  outbound_calls t = [call].
Proof.
  cbn zeta. rewrite respond_response. unfold trace. cbn [fst].
  repeat split.
  - change (headers_of (cors_events
              ++ List.map (fun kv => SendHeader (fst kv) (snd kv))
                   (forwarded_type getheader)
              ++ [EndHeaders; WfileWrite resp_body])
            = cors ++ forwarded_type getheader).
    rewrite !headers_of_app. unfold cors_events.
    rewrite !headers_of_sent. cbn. now rewrite app_nil_r.
  - change (body_of (cors_events
              ++ List.map (fun kv => SendHeader (fst kv) (snd kv))
                   (forwarded_type getheader)
              ++ [EndHeaders; WfileWrite resp_body]) = resp_body).
    rewrite !body_of_app. unfold cors_events.
    rewrite !body_of_sent. cbn. now rewrite app_nil_r.
  - change (call :: outbound_calls (cors_events
              ++ List.map (fun kv => SendHeader (fst kv) (snd kv))
                   (forwarded_type getheader)
              ++ [EndHeaders; WfileWrite resp_body]) = [call]).
    rewrite !outbound_calls_app. unfold cors_events.
    rewrite !outbound_calls_sent. reflexivity.
Qed.

(** The call in the trace of [relay] is the one it answers to. *)
Lemma relay_call (lib : stdlib) (url headers body : pyval) (call : outbound) :
  In (UrlOpen call 120) (trace (relay lib url headers body)) ->
  relay lib url headers body =
    (UrlOpen call 120 :: trace (respond (urlopen lib call 120)),
     result (respond (urlopen lib call 120))).
Proof.
  intros Hin.
  destruct (relay_cases lib url headers body) as [[e He] | (data & hs & _ & He)].
  - rewrite He in Hin. destruct Hin.
  - cbn zeta in He. rewrite He in Hin. cbn [trace fst] in Hin.
    destruct Hin as [Heq | Hin].
    + injection Heq as <-. exact He.
    + exfalso. exact (respond_no_call _ _ _ Hin).
Qed.

(** X1.  A call is only ever made for a request whose body parsed to a
    dict and whose url parsed to a host of [ALLOWED_HOSTS], and it goes to
    that url. *)
Lemma outbound_only_to_allowed (lib : stdlib) (rq : inbound)
  (call : outbound) (timeout : Z) :
  In (UrlOpen call timeout) (trace (do_POST lib rq)) ->
  exists d host,
    json_loads lib (raw rq) = Loaded (VDict d) /\
    urlparse_hostname lib (payload_url d) = Ret (Some host) /\
    In host ALLOWED_HOSTS /\
    req_url call = payload_url d.
Proof.
  intros Hin.
  destruct (do_POST_cases lib rq)
    as [[_ H] | [[Hp Hl] | [[e H] | (d & host & Hp & Hl & Hh & [[Ha H] | [Ha H]])]]].
  - rewrite H in Hin. cbn in Hin. intuition discriminate.
  - rewrite (do_POST_malformed lib rq Hp Hl) in Hin. cbn in Hin.
    intuition discriminate.
  - rewrite H in Hin. destruct Hin.
  - rewrite H, reject_run in Hin. cbn in Hin. intuition discriminate.
  - apply host_allowed_true in Ha as (h & -> & Hh').
    exists d, h. repeat split; try assumption.
    rewrite H in Hin.
    destruct (relay_cases lib (payload_url d) (payload_headers d) (payload_body d))
      as [[e He] | (data & hs & _ & He)].
    + rewrite He in Hin. destruct Hin.
    + cbn zeta in He. rewrite He in Hin. cbn [trace fst] in Hin.
      destruct Hin as [Heq | Hin].
      * injection Heq as <- _. reflexivity.
      * exfalso. exact (respond_no_call _ _ _ Hin).
Qed.

(** *** The claims *)

Import Scenario.

Lemma outbound_only_to_allowed_openai :
  exists d host,
    json_loads scripted (raw (post (raw_for openai_url))) = Loaded (VDict d)
    /\ urlparse_hostname scripted (payload_url d) = Ret (Some host)
    /\ In host ALLOWED_HOSTS
    /\ req_url (call_for openai_url) = payload_url d.
Proof.
  apply (outbound_only_to_allowed scripted (post (raw_for openai_url))
           (call_for openai_url) 120).
  left. reflexivity.
Defined.

(** X2.  A pre-flight request is answered 204 with the cross-origin
    headers and no body, whatever the path. *)
Theorem preflight_is_204 :
  do_OPTIONS = (SendResponse 204 :: cors_events ++ [EndHeaders], Ret tt)
  /\ status_of (trace do_OPTIONS) = Some 204
  /\ headers_of (trace do_OPTIONS) = cors
  /\ body_of (trace do_OPTIONS) = [].
Proof. repeat split. Qed.

(** X3.  A POST to any path but [/proxy] is answered 404 with no
    cross-origin header, and nothing is parsed or called. *)
Theorem other_path_is_404 (lib : stdlib) (rq : inbound) :
  path rq <> U "/proxy" ->
  do_POST lib rq = ([SendResponse 404; EndHeaders], Ret tt).
Proof.
  intros Hp. apply str_eqb_neq in Hp. unfold do_POST. now rewrite Hp.
Qed.

Lemma other_path_is_404_root :
  do_POST scripted {| path := U "/"; raw := raw_for openai_url |}
  = ([SendResponse 404; EndHeaders], Ret tt).
Proof.
  apply (other_path_is_404 scripted).
  intros H. discriminate H.
Defined.

(** C1.  A relay request to [/proxy] whose url parses to a host that is
    not in [ALLOWED_HOSTS] is answered 403 with the cross-origin headers
    and a JSON body that names the host, and no call is made. *)
Theorem unlisted_host_is_rejected (lib : stdlib) (rq : inbound)
  (d : pydict pyval) (host : option pystr) :
  path rq = U "/proxy" ->
  json_loads lib (raw rq) = Loaded (VDict d) ->
  urlparse_hostname lib (payload_url d) = Ret host ->
  (forall h, host = Some h -> ~ In h ALLOWED_HOSTS) ->
  do_POST lib rq =
    (SendResponse 403 :: cors_events
       ++ [ EndHeaders;
            WfileWrite (json_dumps
                          (VDict [(U "error",
                                   VStr (U "Host not allowed: "
                                           ++ host_str host))])) ],
     Ret tt)
  /\ status_of (trace (do_POST lib rq)) = Some 403
  /\ headers_of (trace (do_POST lib rq)) = cors
  /\ outbound_calls (trace (do_POST lib rq)) = [].
Proof.
  intros Hp Hl Hh Hno.
  rewrite (do_POST_parsed lib rq d host Hp Hl Hh),
    (host_allowed_false host Hno), reject_run.
  repeat split.
Qed.

Lemma unlisted_host_is_rejected_evil :
  status_of (trace (do_POST scripted (post (raw_for evil_url)))) = Some 403
  /\ headers_of (trace (do_POST scripted (post (raw_for evil_url)))) = cors
  /\ body_of (trace (do_POST scripted (post (raw_for evil_url))))
     = Q "{'error': 'Host not allowed: evil.example.com'}"
  /\ outbound_calls (trace (do_POST scripted (post (raw_for evil_url)))) = [].
Proof.
  destruct (unlisted_host_is_rejected scripted (post (raw_for evil_url))
              [ (U "url", VStr evil_url); (U "headers", VDict []);
                (U "body", VStr (U "{}")) ]
              (Some (U "evil.example.com")))
    as (Hrun & Hs & Hh & Hc).
  - reflexivity.
  - reflexivity.
  - reflexivity.
  - intros h [= <-] Hin. vm_compute in Hin.
    repeat (destruct Hin as [Hin | Hin]; [discriminate Hin|]). exact Hin.
  - split; [exact Hs | split; [exact Hh | split; [|exact Hc]]].
    rewrite Hrun. reflexivity.
Defined.

(** C2, as the code has it.  When the host is allowed and [urlopen]
    returns a response, the handler sends the status of that response,
    the cross-origin headers, the [Content-Type] of the response when
    [getheader] gives a value that is not empty, and the body as read. *)
Theorem relay_mirrors_upstream (lib : stdlib) (rq : inbound)
  (d : pydict pyval) (host : pystr) (call : outbound)
  (status : Z) (getheader : pystr -> option pystr) (resp_body : pybytes) :
  path rq = U "/proxy" ->
  json_loads lib (raw rq) = Loaded (VDict d) ->
  urlparse_hostname lib (payload_url d) = Ret (Some host) ->
  In host ALLOWED_HOSTS ->
  In (UrlOpen call 120) (trace (do_POST lib rq)) ->
  urlopen lib call 120 = Response status getheader resp_body ->
  do_POST lib rq =
    (UrlOpen call 120 :: SendResponse status :: cors_events
       ++ List.map (fun kv => SendHeader (fst kv) (snd kv))
            (forwarded_type getheader)
       ++ [EndHeaders; WfileWrite resp_body],
     Ret tt)
  /\ status_of (trace (do_POST lib rq)) = Some status
  /\ headers_of (trace (do_POST lib rq)) = cors ++ forwarded_type getheader
  /\ body_of (trace (do_POST lib rq)) = resp_body
  /\ outbound_calls (trace (do_POST lib rq)) = [call].
Proof.
  intros Hp Hl Hh Ha Hin Hup.
  assert (Hal : host_allowed (Some host) = true)
    by (apply host_allowed_true; eauto).
  rewrite (do_POST_parsed lib rq d _ Hp Hl Hh), Hal in Hin |- *.
  rewrite (relay_call lib _ _ _ call Hin), Hup.
  split.
  - rewrite respond_response. reflexivity.
  - apply (relayed_response_read call status getheader resp_body).
Qed.

Lemma relay_mirrors_upstream_ok :
  status_of (trace (do_POST scripted (post (raw_for openai_url)))) = Some 200
  /\ headers_of (trace (do_POST scripted (post (raw_for openai_url))))
     = cors ++ [(U "Content-Type", U "application/json")]
  /\ body_of (trace (do_POST scripted (post (raw_for openai_url))))
     = Q "{'ok':true}"
  /\ outbound_calls (trace (do_POST scripted (post (raw_for openai_url))))
     = [call_for openai_url].
Proof.
  destruct (relay_mirrors_upstream scripted (post (raw_for openai_url))
              [ (U "url", VStr openai_url); (U "headers", VDict []);
                (U "body", VStr (U "{}")) ]
              (U "api.openai.com") (call_for openai_url)
              200 json_type (Q "{'ok':true}"))
    as (_ & Hs & Hh & Hb & Hc).
  - reflexivity.
  - reflexivity.
  - reflexivity.
  - left. reflexivity.
  - left. reflexivity.
  - reflexivity.
  - exact (conj Hs (conj Hh (conj Hb Hc))).
Defined.

(** C2 as stated fails: the upstream response has a [Content-Type]
    header, with an empty value, and the relayed response has none. *)
Lemma empty_content_type_is_dropped :
  In (UrlOpen (call_for blank_url) 120)
     (trace (do_POST scripted (post (raw_for blank_url))))
  /\ urlopen scripted (call_for blank_url) 120
     = Response 200 blank_type (U "ok")
  /\ blank_type (U "Content-Type") = Some []
  /\ headers_of (trace (do_POST scripted (post (raw_for blank_url)))) = cors.
Proof.
  split; [left; reflexivity | split; [reflexivity | split; reflexivity]].
Qed.

(** C3.  A POST to [/proxy] whose body [json.loads] rejects with
    [JSONDecodeError] is answered 400 with the body
    [{"error":"Invalid JSON"}], and no call is made. *)
Theorem malformed_json_is_400 (lib : stdlib) (rq : inbound) :
  path rq = U "/proxy" ->
  json_loads lib (raw rq) = JSONDecodeError ->
  do_POST lib rq =
    ([SendResponse 400; EndHeaders; WfileWrite (Q "{'error':'Invalid JSON'}")],
     Ret tt)
  /\ status_of (trace (do_POST lib rq)) = Some 400
  /\ body_of (trace (do_POST lib rq)) = Q "{'error':'Invalid JSON'}"
  /\ outbound_calls (trace (do_POST lib rq)) = [].
Proof.
  intros Hp Hl. rewrite (do_POST_malformed lib rq Hp Hl). repeat split.
Qed.

Lemma malformed_json_is_400_brace :
  status_of (trace (do_POST scripted (post (U "{")))) = Some 400
  /\ body_of (trace (do_POST scripted (post (U "{"))))
     = Q "{'error':'Invalid JSON'}"
  /\ outbound_calls (trace (do_POST scripted (post (U "{")))) = [].
Proof.
  destruct (malformed_json_is_400 scripted (post (U "{")))
    as (_ & Hs & Hb & Hc).
  - reflexivity.
  - reflexivity.
  - exact (conj Hs (conj Hb Hc)).
Defined.

(** C3 as stated fails on bodies that are no JSON and that [json.loads]
    does not reject with [JSONDecodeError]: a body with [NaN] is loaded,
    and relayed with a call; on the byte [0x80], which is not text,
    [json.loads] raises [UnicodeDecodeError], which leaves the handler
    with nothing sent. *)
Lemma invalid_json_is_not_always_400 :
  json_loads Scenario3.scripted3 Scenario3.raw_nan_body
  = Loaded Scenario3.nan_body
  /\ status_of (trace (do_POST Scenario3.scripted3
                         (post Scenario3.raw_nan_body))) = Some 200
  /\ outbound_calls (trace (do_POST Scenario3.scripted3
                              (post Scenario3.raw_nan_body)))
     = [Scenario3.nan_call]
  /\ do_POST Scenario3.scripted3 (post Scenario3.undecodable)
     = ([], Raise (OtherError "UnicodeDecodeError")).
Proof.
  split; [reflexivity | split; [reflexivity | split; reflexivity]].
Qed.

(** C4.  When the host is allowed and [urlopen] raises [HTTPError], the
    handler sends the code of the error, the cross-origin headers, the
    header [Content-Type: application/json] and the body of the error as
    read. *)
Theorem relay_mirrors_upstream_error (lib : stdlib) (rq : inbound)
  (d : pydict pyval) (host : pystr) (call : outbound)
  (code : Z) (body_bytes : pybytes) :
  path rq = U "/proxy" ->
  json_loads lib (raw rq) = Loaded (VDict d) ->
  urlparse_hostname lib (payload_url d) = Ret (Some host) ->
  In host ALLOWED_HOSTS ->
  In (UrlOpen call 120) (trace (do_POST lib rq)) ->
  urlopen lib call 120 = HTTPError code body_bytes ->
  do_POST lib rq =
    (UrlOpen call 120 :: SendResponse code :: cors_events
       ++ [ SendHeader (U "Content-Type") (U "application/json");
            EndHeaders; WfileWrite body_bytes ],
     Ret tt)
  /\ status_of (trace (do_POST lib rq)) = Some code
  /\ headers_of (trace (do_POST lib rq))
     = cors ++ [(U "Content-Type", U "application/json")]
  /\ body_of (trace (do_POST lib rq)) = body_bytes
  /\ outbound_calls (trace (do_POST lib rq)) = [call].
Proof.
  intros Hp Hl Hh Ha Hin Hup.
  assert (Hal : host_allowed (Some host) = true)
    by (apply host_allowed_true; eauto).
  rewrite (do_POST_parsed lib rq d _ Hp Hl Hh), Hal in Hin |- *.
  rewrite (relay_call lib _ _ _ call Hin), Hup, respond_error.
  repeat split. unfold body_of. cbn. apply app_nil_r.
Qed.

Lemma relay_mirrors_upstream_error_404 :
  status_of (trace (do_POST scripted (post (raw_for missing_url)))) = Some 404
  /\ headers_of (trace (do_POST scripted (post (raw_for missing_url))))
     = cors ++ [(U "Content-Type", U "application/json")]
  /\ body_of (trace (do_POST scripted (post (raw_for missing_url))))
     = Q "{'error':'no such route'}".
Proof.
  destruct (relay_mirrors_upstream_error scripted (post (raw_for missing_url))
              [ (U "url", VStr missing_url); (U "headers", VDict []);
                (U "body", VStr (U "{}")) ]
              (U "api.openai.com") (call_for missing_url)
              404 (Q "{'error':'no such route'}"))
    as (_ & Hs & Hh & Hb & _).
  - reflexivity.
  - reflexivity.
  - reflexivity.
  - left. reflexivity.
  - left. reflexivity.
  - reflexivity.
  - exact (conj Hs (conj Hh Hb)).
Defined.

(** C8.  The 400 response to a body that is not JSON has no header of the
    handler's: no cross-origin header and no content type.  Every other
    response of [do_POST] on [/proxy] starts with the cross-origin
    headers. *)
Theorem malformed_json_has_no_cors (lib : stdlib) (rq : inbound) :
  path rq = U "/proxy" ->
  json_loads lib (raw rq) = JSONDecodeError ->
  status_of (trace (do_POST lib rq)) = Some 400
  /\ headers_of (trace (do_POST lib rq)) = []
  /\ (forall (rq' : inbound) (code : Z),
        path rq' = U "/proxy" ->
        json_loads lib (raw rq') <> JSONDecodeError ->
        status_of (trace (do_POST lib rq')) = Some code ->
        exists more, headers_of (trace (do_POST lib rq')) = cors ++ more).
Proof.
  intros Hp Hl. rewrite (do_POST_malformed lib rq Hp Hl).
  split; [reflexivity|]. split; [reflexivity|].
  intros rq' code Hp' Hl' Hst.
  destruct (do_POST_cases lib rq')
    as [[Hn _] | [[_ Hm] | [[e H] | (d & host & _ & _ & _ & [[_ H] | [_ H]])]]].
  - contradiction.
  - contradiction.
  - rewrite H in Hst. discriminate.
  - rewrite H, reject_run. exists []. reflexivity.
  - rewrite H in Hst |- *.
    destruct (relay_cases lib (payload_url d) (payload_headers d) (payload_body d))
      as [[e He] | (data & hs & _ & He)].
    + rewrite He in Hst. discriminate.
    + cbn zeta in He. rewrite He in Hst |- *. cbn [trace fst] in Hst |- *.
      destruct (urlopen lib _ 120) as [status getheader resp_body | c b | e].
      * exists (forwarded_type getheader).
        apply (relayed_response_read _ status getheader resp_body).
      * rewrite respond_error. exists [(U "Content-Type", U "application/json")].
        reflexivity.
      * discriminate.
Qed.

Lemma malformed_json_has_no_cors_brace :
  status_of (trace (do_POST scripted (post (U "{")))) = Some 400
  /\ headers_of (trace (do_POST scripted (post (U "{")))) = []
  /\ exists more,
       headers_of (trace (do_POST scripted (post (raw_for evil_url))))
       = cors ++ more.
Proof.
  destruct (malformed_json_has_no_cors scripted (post (U "{")))
    as (Hs & Hh & Hall).
  - reflexivity.
  - reflexivity.
  - split; [exact Hs | split; [exact Hh |]].
    apply (Hall (post (raw_for evil_url)) 403).
    + reflexivity.
    + discriminate.
    + reflexivity.
Defined.

(** C9.  A JSON object without a ["url"] (the url is then the empty
    string, whose host is [None]), or with a url whose host parses to
    [None], is answered 403 with the body naming [None]; the handler
    returns, makes no call and does not answer 400. *)
Theorem missing_url_is_rejected (lib : stdlib) (rq : inbound)
  (d : pydict pyval) :
  path rq = U "/proxy" ->
  json_loads lib (raw rq) = Loaded (VDict d) ->
  (dict_get d (U "url") = None /\
   urlparse_hostname lib (VStr []) = Ret None)
  \/ (exists u, dict_get d (U "url") = Some u /\
                urlparse_hostname lib u = Ret None) ->
  do_POST lib rq =
    (SendResponse 403 :: cors_events
       ++ [EndHeaders; WfileWrite (Q "{'error': 'Host not allowed: None'}")],
     Ret tt)
  /\ status_of (trace (do_POST lib rq)) = Some 403
  /\ outbound_calls (trace (do_POST lib rq)) = [].
Proof.
  intros Hp Hl Hurl.
  assert (Hh : urlparse_hostname lib (payload_url d) = Ret None).
  { unfold payload_url. destruct Hurl as [[-> H] | (u & -> & H)]; exact H. }
  rewrite (do_POST_parsed lib rq d None Hp Hl Hh), reject_run.
  repeat split.
Qed.

Lemma missing_url_is_rejected_empty_object :
  status_of (trace (do_POST scripted (post (U "{}")))) = Some 403
  /\ body_of (trace (do_POST scripted (post (U "{}"))))
     = Q "{'error': 'Host not allowed: None'}"
  /\ result (do_POST scripted (post (U "{}"))) = Ret tt
  /\ outbound_calls (trace (do_POST scripted (post (U "{}")))) = [].
Proof.
  destruct (missing_url_is_rejected scripted (post (U "{}")) [])
    as (Hrun & Hs & Hc).
  - reflexivity.
  - reflexivity.
  - left. split; reflexivity.
  - split; [exact Hs | split; [|split; [|exact Hc]]];
      rewrite Hrun; reflexivity.
Defined.

(** C9 as stated fails on a url that has no hostname because [urlparse]
    refuses it: on a url with an open bracket it raises [ValueError], on
    a url that is a number [AttributeError], and the handler fails with
    nothing sent. *)
Lemma unparseable_url_raises :
  json_loads Scenario3.scripted3
    (Scenario2.raw_url_only Scenario3.bracket_url)
  = Loaded (Scenario2.url_only Scenario3.bracket_url)
  /\ do_POST Scenario3.scripted3
       (post (Scenario2.raw_url_only Scenario3.bracket_url))
     = ([], Raise (OtherError "ValueError"))
  /\ json_loads Scenario3.scripted3 Scenario3.raw_number_url
     = Loaded Scenario3.number_url
  /\ do_POST Scenario3.scripted3 (post Scenario3.raw_number_url)
     = ([], Raise AttributeError).
Proof.
  split; [reflexivity | split; [reflexivity | split; reflexivity]].
Qed.

End ProxyProofs.

(* ================================================================== *)
(** ** The refresh helper: properties *)
(* ================================================================== *)

Module RefreshProofs.
Import Py Refresh PyFacts.

(** *** The index *)

Lemma index_from_sound (pre ms : store) (idx0 idx : pydict nat) :
  index_sound (pre ++ ms) idx0 ->
  index_from (length pre) ms idx0 = Ret idx ->
  index_sound (pre ++ ms) idx.
Proof.
  revert pre idx0. induction ms as [|m ms IH]; intros pre idx0 H0 Hi.
  - simpl in Hi. now injection Hi as <-.
  - simpl in Hi.
    replace (pre ++ m :: ms) with ((pre ++ [m]) ++ ms) in *
      by now rewrite <- app_assoc.
    assert (Hlen : S (length pre) = length (pre ++ [m]))
      by (rewrite length_app; simpl; lia).
    rewrite Hlen in Hi.
    destruct (dict_get m (U "model")) as [[| | | |name| |]|] eqn:Hm;
      try discriminate; try (eapply IH; eassumption).
    apply (IH _ (dict_set idx0 name (length pre))); [|assumption].
    intros name' i Hget.
    destruct (str_eqb name name') eqn:E.
    + apply str_eqb_eq in E. subst name'.
      rewrite dict_get_set_eq in Hget. injection Hget as <-.
      exists m. split; [|assumption].
      rewrite <- app_assoc. apply list_lookup_middle. reflexivity.
    + apply str_eqb_neq in E. rewrite dict_get_set_ne in Hget by assumption.
      now apply H0.
Qed.

Lemma model_index_sound (ms : store) (idx : pydict nat) :
  model_index ms = Ret idx -> index_sound ms idx.
Proof.
  intros H. apply (index_from_sound [] ms [] idx); [|exact H].
  intros name i Hget. discriminate.
Qed.

Lemma index_sound_inj (ms : store) (idx : pydict nat) name1 name2 i :
  index_sound ms idx ->
  dict_get idx name1 = Some i -> dict_get idx name2 = Some i ->
  name1 = name2.
Proof.
  intros Hs H1 H2.
  destruct (Hs _ _ H1) as (m1 & Hl1 & Hm1).
  destruct (Hs _ _ H2) as (m2 & Hl2 & Hm2).
  congruence.
Qed.

(** The index has exactly the names of the store. *)
Lemma index_from_known (i : nat) (ms : store) (idx0 idx : pydict nat) :
  index_from i ms idx0 = Ret idx ->
  forall name, dict_mem idx name = dict_mem idx0 name || known ms name.
Proof.
  revert i idx0. induction ms as [|m ms IH]; intros i idx0 Hi name.
  - simpl in Hi. injection Hi as <-. simpl. now rewrite orb_false_r.
  - simpl in Hi. unfold known. cbn [existsb]. fold (known ms name).
    destruct (dict_get m (U "model")) as [[| | | |s| |]|] eqn:Hm;
      try discriminate; try (rewrite (IH _ _ Hi name); reflexivity).
    rewrite (IH _ _ Hi name), dict_mem_set.
    destruct (str_eqb s name), (dict_mem idx0 name); reflexivity.
Qed.

Lemma model_index_known (ms : store) (idx : pydict nat) (name : pystr) :
  model_index ms = Ret idx -> dict_mem idx name = known ms name.
Proof. intros H. apply (index_from_known _ _ _ _ H name). Qed.

(** *** The frame of a merge *)

Lemma same_other_fields_refl (m : record) : same_other_fields m m.
Proof. intros field _ _. reflexivity. Qed.

Lemma same_other_fields_trans (m1 m2 m3 : record) :
  same_other_fields m1 m2 -> same_other_fields m2 m3 ->
  same_other_fields m1 m3.
Proof. intros H12 H23 field H1 H2. rewrite H23, H12; auto. Qed.

Lemma frame_refl (ms : store) : frame ms ms.
Proof. induction ms; constructor; auto using same_other_fields_refl. Qed.

Lemma frame_trans (ms1 ms2 ms3 : store) :
  frame ms1 ms2 -> frame ms2 ms3 -> frame ms1 ms3.
Proof.
  intros H12. revert ms3.
  induction H12 as [|m1 m2 l1 l2 Hm _ IH]; intros ms3 H23;
    inversion H23 as [|? m3 ? l3 Hm' Hl']; subst; constructor.
  - exact (same_other_fields_trans _ _ _ Hm Hm').
  - apply IH. exact Hl'.
Qed.

Lemma frame_assign (ms : store) (i : nat) (m : record) (field : pystr) v :
  ms !! i = Some m -> In field price_fields ->
  frame ms (<[i := dict_set m field v]> ms).
Proof.
  intros Hl Hf. unfold frame.
  rewrite <- (list_insert_id ms i m Hl) at 1.
  apply Forall2_insert; [apply frame_refl|].
  intros f H1 H2. apply dict_get_set_ne.
  destruct Hf as [<- | [<- | []]]; congruence.
Qed.

Lemma merge_field_frame isp name prices i st field :
  In field price_fields ->
  frame (fst st) (fst (merge_field isp name prices i st field)).
Proof.
  intros Hf. destruct st as [ms ch]. unfold merge_field. cbn [fst].
  destruct (dict_get prices field) as [new|]; [|apply frame_refl].
  destruct (ms !! i) as [m|] eqn:Hl; [|apply frame_refl].
  destruct (num_ne new _); [|apply frame_refl].
  cbn [fst]. now apply frame_assign.
Qed.

Lemma merge_entry_frame isp idx st entry :
  frame (fst st) (fst (merge_entry isp idx st entry)).
Proof.
  destruct entry as [name prices]. unfold merge_entry.
  destruct (dict_get idx name) as [i|]; [|apply frame_refl].
  unfold price_fields. cbn [fold_left].
  eapply frame_trans; apply merge_field_frame; cbn; auto.
Qed.

Lemma merge_loop_frame isp idx upd st :
  frame (fst st) (fst (fold_left (merge_entry isp idx) upd st)).
Proof.
  revert st. induction upd as [|e upd IH]; intros st; cbn [fold_left].
  - apply frame_refl.
  - eapply frame_trans; [apply merge_entry_frame | apply IH].
Qed.

(** The names are outside the frame, so the index stays. *)
Lemma index_from_frame (i : nat) (ms ms' : store) (idx0 : pydict nat) :
  frame ms ms' -> index_from i ms' idx0 = index_from i ms idx0.
Proof.
  intros H. revert i idx0. induction H as [|m m' ms ms' Hm _ IH];
    intros i idx0; [reflexivity|].
  cbn [index_from]. rewrite (Hm (U "model")) by (intros [=]).
  destruct (dict_get m (U "model")) as [[| | | |s| |]|]; auto.
Qed.

Lemma index_sound_frame (ms ms' : store) (idx : pydict nat) :
  frame ms ms' -> index_sound ms idx -> index_sound ms' idx.
Proof.
  intros Hf Hs name i Hget. destruct (Hs _ _ Hget) as (m & Hl & Hm).
  destruct (Forall2_lookup_l _ _ _ _ _ Hf Hl) as (m' & Hl' & Hmm).
  exists m'. split; [assumption|].
  rewrite (Hmm (U "model")) by (intros [=]). assumption.
Qed.

(** *** What a merge touches *)

Section Loop.

Variable isp : Z -> bool.

Lemma merge_field_other name prices i st field (j : nat) :
  j <> i -> fst (merge_field isp name prices i st field) !! j = fst st !! j.
Proof.
  intros Hj. destruct st as [ms ch]. unfold merge_field. cbn [fst].
  destruct (dict_get prices field) as [new|]; [|reflexivity].
  destruct (ms !! i) as [m|]; [|reflexivity].
  destruct (num_ne new _); [|reflexivity].
  cbn [fst]. apply list_lookup_insert_ne. congruence.
Qed.

Lemma merge_entry_other idx st name prices (j : nat) :
  dict_get idx name <> Some j ->
  fst (merge_entry isp idx st (name, prices)) !! j = fst st !! j.
Proof.
  intros Hj. unfold merge_entry.
  destruct (dict_get idx name) as [i|]; [|reflexivity].
  unfold price_fields. cbn [fold_left].
  rewrite !merge_field_other by congruence. reflexivity.
Qed.

Lemma merge_loop_other idx (upd : updates) st (j : nat) :
  (forall name, In name (List.map fst upd) -> dict_get idx name <> Some j) ->
  fst (fold_left (merge_entry isp idx) upd st) !! j = fst st !! j.
Proof.
  revert st. induction upd as [|[name prices] upd IH]; intros st Hj;
    cbn [fold_left]; [reflexivity|].
  rewrite IH by (intros n Hn; apply Hj; now right).
  apply merge_entry_other. apply Hj. now left.
Qed.

Lemma merge_field_absent name prices i st field :
  dict_get prices field = None ->
  merge_field isp name prices i st field = st.
Proof. intros H. destruct st. unfold merge_field. now rewrite H. Qed.

Lemma merge_field_assign name prices i ms ch field new m :
  dict_get prices field = Some new ->
  ms !! i = Some m ->
  num_ne new (default VNone (dict_get m field)) = true ->
  merge_field isp name prices i (ms, ch) field
  = (<[i := dict_set m field (num_val new)]> ms,
     ch ++ [change_line isp name field (default VNone (dict_get m field)) new]).
Proof. intros Hp Hl Hne. unfold merge_field. now rewrite Hp, Hl, Hne. Qed.

Lemma merge_field_settles name prices i st field :
  settled_field (fst (merge_field isp name prices i st field)) i prices field.
Proof.
  destruct st as [ms ch]. unfold merge_field, settled_field.
  destruct (dict_get prices field) as [new|]; [|intros; discriminate].
  destruct (ms !! i) as [m|] eqn:Hl; cbn [fst]; [|intros; congruence].
  destruct (num_ne new (default VNone (dict_get m field))) eqn:Hne;
    cbn [fst]; intros m' new' Hl' [= <-].
  - pose proof (list_lookup_insert_eq ms i (dict_set m field (num_val new))
                  (lookup_lt_Some _ _ _ Hl)) as Hi.
    assert (Some m' = Some (dict_set m field (num_val new))) as [= ->]
      by (rewrite <- Hl'; exact Hi).
    right. apply dict_get_set_eq.
  - rewrite Hl in Hl'. injection Hl' as <-. now left.
Qed.

Lemma merge_field_keeps name prices i st field field' :
  field <> field' ->
  settled_field (fst st) i prices field' ->
  settled_field (fst (merge_field isp name prices i st field)) i prices field'.
Proof.
  intros Hne Hs. destruct st as [ms ch]. unfold merge_field. cbn [fst] in *.
  destruct (dict_get prices field) as [new|]; [|exact Hs].
  destruct (ms !! i) as [m|] eqn:Hl; [|exact Hs].
  destruct (num_ne new _); [|exact Hs].
  cbn [fst]. intros m' new' Hl' Hp'.
  pose proof (list_lookup_insert_eq ms i (dict_set m field (num_val new))
                (lookup_lt_Some _ _ _ Hl)) as Hi.
  assert (Some m' = Some (dict_set m field (num_val new))) as [= ->]
    by (rewrite <- Hl'; exact Hi).
  rewrite dict_get_set_ne by assumption.
  now apply Hs.
Qed.

Lemma merge_entry_settles idx st name prices i field :
  dict_get idx name = Some i -> In field price_fields ->
  settled_field (fst (merge_entry isp idx st (name, prices))) i prices field.
Proof.
  intros Hi Hf. unfold merge_entry. rewrite Hi.
  unfold price_fields. cbn [fold_left].
  destruct Hf as [<- | [<- | []]].
  - apply merge_field_keeps; [intros [=]|]. apply merge_field_settles.
  - apply merge_field_settles.
Qed.

(** After the loop every entry is settled: an entry settles its record
    and the later entries, of other names, leave that record alone. *)
Lemma merge_loop_settles idx (upd : updates) st :
  (forall n1 n2 i, dict_get idx n1 = Some i -> dict_get idx n2 = Some i ->
                   n1 = n2) ->
  NoDup (List.map fst upd) ->
  forall name prices i field,
    In (name, prices) upd -> dict_get idx name = Some i ->
    In field price_fields ->
    settled_field (fst (fold_left (merge_entry isp idx) upd st)) i prices field.
Proof.
  intros Hinj. revert st.
  induction upd as [|[n p] upd IH]; intros st Hnd name prices i field Hin Hi Hf;
    [destruct Hin|].
  cbn [List.map fst] in Hnd. apply NoDup_cons in Hnd as [Hfresh Hnd].
  cbn [fold_left]. destruct Hin as [[= -> ->] | Hin].
  - intros m new Hl Hp.
    rewrite merge_loop_other in Hl.
    + exact (merge_entry_settles idx st name prices i field Hi Hf m new Hl Hp).
    + intros n' Hn' Hi'. apply Hfresh.
      rewrite (Hinj _ _ _ Hi Hi'). now apply list_elem_of_In.
  - exact (IH _ Hnd name prices i field Hin Hi Hf).
Qed.

Lemma merge_field_settled name prices i ms ch field :
  settled_field ms i prices field ->
  fst (merge_field isp name prices i (ms, ch) field) = ms
  /\ ((forall new, dict_get prices field = Some new -> num_is_nan new = false) ->
      merge_field isp name prices i (ms, ch) field = (ms, ch)).
Proof.
  intros Hs. unfold merge_field.
  destruct (dict_get prices field) as [new|] eqn:Hp; [|now split].
  destruct (ms !! i) as [m|] eqn:Hl; [|now split].
  destruct (num_ne new (default VNone (dict_get m field))) eqn:Hne;
    [|now split].
  destruct (Hs m new Hl Hp) as [H | H]; [congruence|].
  split.
  - cbn [fst]. rewrite (dict_set_same _ _ _ H). now apply list_insert_id.
  - intros Hnan. exfalso. rewrite H in Hne.
    change (num_ne new (num_val new) = true) in Hne.
    rewrite (num_ne_self new (Hnan new eq_refl)) in Hne. discriminate.
Qed.

(** On a store where every entry is settled the loop writes nothing new,
    and without [nan] it reports nothing but the notices. *)
Lemma merge_loop_settled idx (upd : updates) ms ch :
  (forall name prices i field,
     In (name, prices) upd -> dict_get idx name = Some i ->
     In field price_fields -> settled_field ms i prices field) ->
  fst (fold_left (merge_entry isp idx) upd (ms, ch)) = ms
  /\ (no_nan upd ->
      fold_left (merge_entry isp idx) upd (ms, ch)
      = (ms, ch ++ notices_of idx upd)).
Proof.
  revert ch. induction upd as [|[name prices] upd IH]; intros ch Hs.
  - cbn. split; [reflexivity|]. intros _. now rewrite app_nil_r.
  - cbn [fold_left].
    assert (Hrest : forall n p i f, In (n, p) upd -> dict_get idx n = Some i ->
                      In f price_fields -> settled_field ms i p f)
      by (intros; eapply Hs; eauto; now right).
    unfold notices_of. cbn [List.map fst List.filter]. unfold dict_mem.
    unfold merge_entry at 2 4.
    destruct (dict_get idx name) as [i|] eqn:Hi; cbn [negb].
    + unfold price_fields. cbn [fold_left].
      destruct (merge_field_settled name prices i ms ch (U "input_per_mtok"))
        as [H1 H1']; [eapply Hs; cbn; eauto|].
      destruct (merge_field isp name prices i (ms, ch) (U "input_per_mtok"))
        as [ms1 ch1] eqn:E1.
      cbn [fst] in H1. subst ms1.
      destruct (merge_field_settled name prices i ms ch1 (U "output_per_mtok"))
        as [H2 H2']; [eapply Hs; cbn; eauto|].
      destruct (merge_field isp name prices i (ms, ch1) (U "output_per_mtok"))
        as [ms2 ch2] eqn:E2.
      cbn [fst] in H2. subst ms2.
      destruct (IH ch2 Hrest) as [IH1 IH2]. split; [exact IH1|].
      intros Hnan.
      assert (Hn : forall field new, dict_get prices field = Some new ->
                                     num_is_nan new = false)
        by (intros f new Hp; eapply (Hnan name prices); cbn; eauto).
      specialize (H1' (Hn _)). injection H1' as <-.
      specialize (H2' (Hn _)). injection H2' as <-.
      apply IH2. intros n p f new Hin. apply (Hnan n p f new). now right.
    + cbn [fst snd].
      destruct (IH (ch ++ [new_model_line name]) Hrest) as [IH1 IH2].
      split; [exact IH1|]. intros Hnan.
      rewrite IH2 by (intros n p f new Hin; apply (Hnan n p f new); now right).
      cbn [List.map]. now rewrite <- app_assoc.
Qed.

Lemma filter_none {A} (f : A -> bool) (l : list A) :
  (forall x, In x l -> f x = false) -> List.filter f l = [].
Proof.
  induction l as [|x l IH]; intros H; [reflexivity|].
  cbn [List.filter]. rewrite (H x) by now left.
  apply IH. intros y Hy. apply H. now right.
Qed.

Lemma notices_of_index (ms : store) (idx : pydict nat) (upd : updates) :
  model_index ms = Ret idx -> notices_of idx upd = new_model_notices ms upd.
Proof.
  intros H. unfold notices_of, new_model_notices. f_equal.
  apply filter_ext. intros name. now rewrite (model_index_known ms idx name H).
Qed.

End Loop.

(** *** Merge: the claims *)

Import Scenario.

Lemma merge_updates_raises isp data upd e :
  model_index (models data) = Raise e ->
  merge_updates isp data upd = (data, Raise e).
Proof. intros H. unfold merge_updates. now rewrite H. Qed.

Lemma merge_updates_returns isp data upd idx :
  model_index (models data) = Ret idx ->
  merge_updates isp data upd =
    ({| models := fst (fold_left (merge_entry isp idx) upd (models data, []));
        last_updated := last_updated data;
        extra := extra data |},
     Ret (snd (fold_left (merge_entry isp idx) upd (models data, [])))).
Proof.
  intros H. unfold merge_updates. rewrite H.
  destruct (fold_left _ _ _). reflexivity.
Qed.

Lemma merge_updates_frame isp data upd :
  frame (models data) (models (fst (merge_updates isp data upd))).
Proof.
  destruct (model_index (models data)) as [idx|e] eqn:Hi.
  - rewrite (merge_updates_returns isp data upd idx Hi). cbn [fst models].
    apply (merge_loop_frame isp idx upd (models data, [])).
  - rewrite (merge_updates_raises isp data upd e Hi). apply frame_refl.
Qed.

(** C5, as the code has it.  For an update set (a dict, so its names are
    distinct) the dataset after a second merge is the dataset after the
    first.  When no price is [nan], the second merge returns the notices
    for the names that no record has and no other line; it returns no
    line at all when every name has a record. *)
Theorem merge_twice (isp : Z -> bool) (data : dataset) (upd : updates) :
  NoDup (List.map fst upd) ->
  fst (merge_updates isp (fst (merge_updates isp data upd)) upd)
  = fst (merge_updates isp data upd)
  /\ (forall e, snd (merge_updates isp data upd) = Raise e ->
        snd (merge_updates isp (fst (merge_updates isp data upd)) upd)
        = Raise e)
  /\ (no_nan upd ->
      forall changes, snd (merge_updates isp data upd) = Ret changes ->
        snd (merge_updates isp (fst (merge_updates isp data upd)) upd)
        = Ret (new_model_notices (models data) upd))
  /\ (no_nan upd ->
      (forall name, In name (List.map fst upd) ->
                    known (models data) name = true) ->
      forall changes, snd (merge_updates isp data upd) = Ret changes ->
        snd (merge_updates isp (fst (merge_updates isp data upd)) upd)
        = Ret []).
Proof.
  intros Hnd.
  destruct (model_index (models data)) as [idx|e] eqn:Hi.
  - pose proof (merge_updates_frame isp data upd) as Hfr.
    rewrite (merge_updates_returns isp data upd idx Hi) in *.
    cbn [fst snd models] in *.
    set (st1 := fold_left (merge_entry isp idx) upd (models data, [])) in *.
    assert (Hi1 : model_index (fst st1) = Ret idx).
    { unfold model_index. rewrite (index_from_frame 0 _ _ [] Hfr). exact Hi. }
    pose proof (model_index_sound _ _ Hi) as Hsound.
    assert (Hset : forall name prices i field,
               In (name, prices) upd -> dict_get idx name = Some i ->
               In field price_fields ->
               settled_field (fst st1) i prices field).
    { apply merge_loop_settles; [|exact Hnd].
      intros n1 n2 i. apply (index_sound_inj _ _ _ _ _ Hsound). }
    destruct (merge_loop_settled isp idx upd (fst st1) [] Hset) as [Hst Hch].
    rewrite (merge_updates_returns isp
               {| models := fst st1; last_updated := last_updated data;
                  extra := extra data |} upd idx Hi1).
    cbn [fst snd models last_updated extra].
    split; [|split; [|split]].
    + f_equal. exact Hst.
    + intros e [=].
    + intros Hnan changes _. f_equal.
      etransitivity; [exact (f_equal snd (Hch Hnan))|]. cbn [snd app].
      apply (notices_of_index _ _ _ Hi).
    + intros Hnan Hknown changes _. f_equal.
      etransitivity; [exact (f_equal snd (Hch Hnan))|]. cbn [snd app].
      unfold notices_of.
      rewrite (filter_none (fun name => negb (dict_mem idx name)));
        [reflexivity|].
      intros n Hn. now rewrite (model_index_known _ _ n Hi), (Hknown n Hn).
  - rewrite (merge_updates_raises isp data upd e Hi). cbn [fst snd].
    rewrite (merge_updates_raises isp data upd e Hi). cbn [fst snd].
    split; [reflexivity|]. split; [auto|]. split; intros; discriminate.
Qed.

Lemma merge_twice_price_cut :
  fst (merge_updates ascii_printable
         (fst (merge_updates ascii_printable sample_data price_cut)) price_cut)
  = fst (merge_updates ascii_printable sample_data price_cut)
  /\ snd (merge_updates ascii_printable
            (fst (merge_updates ascii_printable sample_data price_cut))
            price_cut)
     = Ret [].
Proof.
  assert (Hnd : NoDup (List.map fst price_cut)).
  { cbn. apply NoDup_cons. split; [apply not_elem_of_nil | apply NoDup_nil_2]. }
  assert (Hnan : no_nan price_cut).
  { intros name prices field new [[= <- <-] | []] Hp. cbn in Hp.
    destruct (str_eqb _ field); [injection Hp as <-; reflexivity | discriminate]. }
  destruct (merge_twice ascii_printable sample_data price_cut Hnd)
    as (Hsame & _ & _ & Hnone).
  split; [exact Hsame|].
  apply (Hnone Hnan) with (changes := [U "  gpt-4o: input_per_mtok $2.5 -> $2.0"]).
  - intros name [<- | []]. reflexivity.
  - reflexivity.
Defined.

(** C5 as stated fails: a second merge of the same update set still
    returns a line, the notice for a model that has no record, and the
    change line of a [nan] price. *)
Lemma second_merge_still_reports :
  snd (merge_updates ascii_printable
         (fst (merge_updates ascii_printable sample_data unknown_model))
         unknown_model)
  = Ret [U "  NEW MODEL FOUND: gpt-5 (add manually to data.json)"]
  /\ snd (merge_updates ascii_printable
            (fst (merge_updates ascii_printable sample_data nan_price))
            nan_price)
     = Ret [U "  gpt-4o: input_per_mtok $nan -> $nan"].
Proof. split; reflexivity. Qed.

(** C6.  A merge leaves the date, the other keys and the number of
    records as they are, and in every record every field but
    [input_per_mtok] and [output_per_mtok].  An entry whose name no
    record has adds its notice and leaves the store as it is; when no
    name of the update set has a record the dataset is unchanged. *)
Theorem merge_keeps_other_fields (isp : Z -> bool) (data : dataset)
  (upd : updates) :
  last_updated (fst (merge_updates isp data upd)) = last_updated data
  /\ extra (fst (merge_updates isp data upd)) = extra data
  /\ length (models (fst (merge_updates isp data upd)))
     = length (models data)
  /\ (forall (i : nat) (m : record),
        models data !! i = Some m ->
        exists m',
          models (fst (merge_updates isp data upd)) !! i = Some m'
          /\ forall field,
               field <> U "input_per_mtok" -> field <> U "output_per_mtok" ->
               dict_get m' field = dict_get m field)
  /\ (forall idx name prices st,
        model_index (models data) = Ret idx ->
        known (models data) name = false ->
        merge_entry isp idx st (name, prices)
        = (fst st, snd st ++ [new_model_line name]))
  /\ (forall idx,
        model_index (models data) = Ret idx ->
        (forall name, In name (List.map fst upd) ->
                      known (models data) name = false) ->
        merge_updates isp data upd
        = (data, Ret (List.map new_model_line (List.map fst upd)))).
Proof.
  pose proof (merge_updates_frame isp data upd) as Hfr.
  assert (Hentry : forall idx name prices st,
             model_index (models data) = Ret idx ->
             known (models data) name = false ->
             merge_entry isp idx st (name, prices)
             = (fst st, snd st ++ [new_model_line name])).
  { intros idx name prices st Hi Hk. unfold merge_entry.
    pose proof (model_index_known _ _ name Hi) as Hm.
    rewrite Hk in Hm. unfold dict_mem in Hm.
    destruct (dict_get idx name); [discriminate | reflexivity]. }
  split; [|split; [|split; [|split; [|split]]]].
  - unfold merge_updates. destruct (model_index _); [|reflexivity].
    destruct (fold_left _ _ _). reflexivity.
  - unfold merge_updates. destruct (model_index _); [|reflexivity].
    destruct (fold_left _ _ _). reflexivity.
  - symmetry. exact (Forall2_length _ _ _ Hfr).
  - intros i m Hl.
    destruct (Forall2_lookup_l _ _ _ _ _ Hfr Hl) as (m' & Hl' & Hm).
    exists m'. split; [exact Hl' | exact Hm].
  - exact Hentry.
  - intros idx Hi Hnone. rewrite (merge_updates_returns isp data upd idx Hi).
    assert (Hloop : forall st,
               fold_left (merge_entry isp idx) upd st
               = (fst st, snd st ++ List.map new_model_line (List.map fst upd))).
    { clear Hfr. induction upd as [|[n p] upd IH]; intros st.
      - cbn. rewrite app_nil_r. now destruct st.
      - cbn [fold_left List.map fst].
        rewrite (Hentry idx n p st Hi) by (apply Hnone; now left).
        rewrite IH by (intros n' Hn'; apply Hnone; now right).
        cbn [fst snd]. now rewrite <- app_assoc. }
    rewrite Hloop. cbn [fst snd app]. now destruct data.
Qed.

(** C7, as the code has it.  In a dataset whose index leads from
    [gpt-4o] to a record with [input_per_mtok] 2.5, merging
    [{"gpt-4o": {"input_per_mtok": 2.00}}] writes 2.0 into that field of
    that record, changes nothing else, and returns the one line
    ["  gpt-4o: input_per_mtok $2.5 -> $2.0"]. *)
Theorem price_cut_is_merged (isp : Z -> bool) (data : dataset)
  (idx : pydict nat) (i : nat) (m : record) :
  model_index (models data) = Ret idx ->
  dict_get idx (U "gpt-4o") = Some i ->
  models data !! i = Some m ->
  dict_get m (U "input_per_mtok") = Some (VFloat 2.5) ->
  merge_updates isp data price_cut
  = ({| models :=
          <[i := dict_set m (U "input_per_mtok") (VFloat 2)]> (models data);
        last_updated := last_updated data;
        extra := extra data |},
     Ret [U "  gpt-4o: input_per_mtok $2.5 -> $2.0"])
  /\ dict_get (dict_set m (U "input_per_mtok") (VFloat 2)) (U "input_per_mtok")
     = Some (VFloat 2)
  /\ (forall field, field <> U "input_per_mtok" ->
        dict_get (dict_set m (U "input_per_mtok") (VFloat 2)) field
        = dict_get m field).
Proof.
  intros Hi Hg Hl Hm. split; [|split].
  - rewrite (merge_updates_returns isp data price_cut idx Hi).
    unfold price_cut. cbn [fold_left]. unfold merge_entry. rewrite Hg.
    unfold price_fields. cbn [fold_left].
    rewrite (merge_field_assign isp (U "gpt-4o")
               [(U "input_per_mtok", NFloat 2)] i (models data) []
               (U "input_per_mtok") (NFloat 2) m eq_refl Hl)
      by (rewrite Hm; reflexivity).
    rewrite merge_field_absent by reflexivity.
    rewrite Hm. reflexivity.
  - apply dict_get_set_eq.
  - intros field Hf. apply dict_get_set_ne. congruence.
Qed.

Lemma price_cut_is_merged_sample :
  merge_updates ascii_printable sample_data price_cut
  = ({| models := [dict_set gpt_4o (U "input_per_mtok") (VFloat 2); claude];
        last_updated := last_updated sample_data;
        extra := extra sample_data |},
     Ret [U "  gpt-4o: input_per_mtok $2.5 -> $2.0"]).
Proof.
  destruct (price_cut_is_merged ascii_printable sample_data
              [(U "gpt-4o", 0%nat); (U "claude-sonnet", 1%nat)] 0 gpt_4o)
    as (H & _ & _).
  - reflexivity.
  - reflexivity.
  - reflexivity.
  - reflexivity.
  - exact H.
Defined.

(** C7 as stated fails: the line that is returned is not the line of the
    claim, with or without the two leading spaces. *)
Lemma price_cut_line_differs :
  snd (merge_updates ascii_printable sample_data price_cut)
  = Ret [U "  gpt-4o: input_per_mtok $2.5 -> $2.0"]
  /\ str_eqb (U "  gpt-4o: input_per_mtok $2.5 -> $2.0")
             (U "gpt-4o: input_per_mtok $2.5 -> $2.00") = false
  /\ str_eqb (U "  gpt-4o: input_per_mtok $2.5 -> $2.0")
             (U "  gpt-4o: input_per_mtok $2.5 -> $2.00") = false.
Proof. split; [|split]; reflexivity. Qed.

(** *** The parsers and the run *)

Lemma snd_wbind {A B} (m : W A) (k : A -> W B) :
  snd (wbind m k) = snd (k (snd m)).
Proof. destruct m as [o a]. unfold wbind. cbn [snd]. now destruct (k a). Qed.

Lemma parse_deepseek_empty findall html :
  snd (parse_deepseek findall html) = [].
Proof.
  unfold parse_deepseek. rewrite snd_wbind. reflexivity.
Qed.

Lemma PARSERS_empty findall provider parser html :
  dict_get (PARSERS findall) provider = Some parser ->
  snd (parser html) = [].
Proof.
  unfold PARSERS. cbn [dict_get].
  repeat (destruct (str_eqb _ provider);
          [intros [= <-]; first [reflexivity | apply parse_deepseek_empty]|]).
  discriminate.
Qed.

Lemma pbind_wlift {A B} (m : W A) (k : A -> P B) :
  pbind (wlift m) k = (fst m ++ fst (k (snd m)), snd (k (snd m))).
Proof. unfold pbind, wlift. now destruct (k (snd m)). Qed.

Lemma pbind_pret {A B} (a : A) (k : A -> P B) : pbind (pret a) k = k a.
Proof. unfold pbind, pret. now destruct (k a). Qed.

Lemma pbind_ret {A B} (o : list pystr) (a : A) (k : A -> P B) :
  pbind (o, Ret a) k = (o ++ fst (k a), snd (k a)).
Proof. unfold pbind. now destruct (k a). Qed.

(** The loop returns the updates it was given, unless a fetch raises
    what [fetch_url] does not catch. *)
Lemma fetch_and_parse_keeps urlopen_read findall urls all_updates :
  snd (fetch_and_parse urlopen_read findall urls all_updates)
  = Ret all_updates
  \/ exists provider url e,
       In (provider, url) urls
       /\ urlopen_read url = FetchRaises e
       /\ snd (fetch_and_parse urlopen_read findall urls all_updates)
          = Raise e.
Proof.
  revert all_updates.
  induction urls as [|[provider url] urls IH]; intros all_updates;
    [left; reflexivity|].
  assert (forall all,
            snd (fetch_and_parse urlopen_read findall urls all) = Ret all
            \/ exists provider' url' e,
                 In (provider', url') ((provider, url) :: urls)
                 /\ urlopen_read url' = FetchRaises e
                 /\ snd (fetch_and_parse urlopen_read findall urls all)
                    = Raise e) as IH'.
  { intros all. destruct (IH all) as [H | (p & u & e & Hin & Hu & H)];
      [left; exact H|].
    right. exists p, u, e. split; [right; exact Hin | auto]. }
  cbn [fetch_and_parse]. rewrite pbind_wlift. cbn [snd].
  unfold fetch_url.
  destruct (urlopen_read url) as [text | msg | e] eqn:Hu; cbv beta iota.
  - rewrite pbind_pret.
    destruct (dict_get (PARSERS findall) provider) as [parser|] eqn:Hp;
      [|apply IH'].
    rewrite pbind_wlift. cbn [snd].
    rewrite (PARSERS_empty findall provider parser text Hp).
    cbn [nonempty]. rewrite pbind_wlift. cbn [snd wret]. apply IH'.
  - rewrite pbind_wlift. cbn [pret fst snd]. rewrite pbind_ret.
    apply IH'.
  - right. exists provider, url, e.
    split; [left; reflexivity | split; [exact Hu | reflexivity]].
Qed.

(** C10.  Each of the seven parsers returns the empty mapping for every
    page.  So the loop of [main], when it returns, returns no update (it
    does not return only when a fetch raises an exception that
    [fetch_url] does not catch, which ends the run); and the merge step,
    given no update, prints its three lines, does not run
    [merge_updates] and leaves the dataset as it is; the two steps in
    sequence end with the dataset they were given, or with the exception
    of the fetch. *)
Theorem parsers_find_nothing (isp : Z -> bool)
  (urlopen_read : pystr -> fetched)
  (findall : pystr -> list pystr) :
  (forall html,
     snd (parse_openai html) = []
     /\ snd (parse_anthropic html) = []
     /\ snd (parse_google html) = []
     /\ snd (parse_mistral html) = []
     /\ snd (parse_deepseek findall html) = []
     /\ snd (parse_cohere html) = []
     /\ snd (parse_fireworks html) = [])
  /\ length (PARSERS findall) = 7%nat
  /\ (forall provider parser html,
        dict_get (PARSERS findall) provider = Some parser ->
        snd (parser html) = [])
  /\ (snd (fetch_and_parse urlopen_read findall PRICING_URLS []) = Ret []
      \/ exists provider url e,
           In (provider, url) PRICING_URLS
           /\ urlopen_read url = FetchRaises e
           /\ snd (fetch_and_parse urlopen_read findall PRICING_URLS [])
              = Raise e)
  /\ (forall data,
        merge_step isp data []
        = ([ [];
             U "No automated price updates extracted.";
             U "(This is normal " ++ [8212]
               ++ U " most providers use dynamic JS rendering.)";
             U "Tip: Update data.json manually when you see price changes." ],
           Ret data))
  /\ (forall data,
        snd (all_updates <-
               fetch_and_parse urlopen_read findall PRICING_URLS [] ;;
             merge_step isp data all_updates)%run
        = Ret data
        \/ exists provider url e,
             In (provider, url) PRICING_URLS
             /\ urlopen_read url = FetchRaises e
             /\ snd (all_updates <-
                       fetch_and_parse urlopen_read findall PRICING_URLS [] ;;
                     merge_step isp data all_updates)%run
                = Raise e).
Proof.
  split; [|split; [|split; [|split; [|split]]]].
  - intros html. repeat split. apply parse_deepseek_empty.
  - reflexivity.
  - apply PARSERS_empty.
  - apply fetch_and_parse_keeps.
  - intros data. reflexivity.
  - intros data.
    destruct (fetch_and_parse_keeps urlopen_read findall PRICING_URLS [])
      as [H | (provider & url & e & Hin & Hu & H)];
      destruct (fetch_and_parse urlopen_read findall PRICING_URLS [])
        as [o r]; cbn [snd] in H; subst r.
    + left. rewrite pbind_ret. reflexivity.
    + right. exists provider, url, e.
      split; [exact Hin | split; [exact Hu | reflexivity]].
Qed.

End RefreshProofs.

(* ================================================================== *)
(** ** The relay proxy: further properties *)
(* ================================================================== *)

Module ProxyMore.
Import Py Proxy PyFacts ProxyProofs ProxyWire Scenario Scenario2.

(** *** What went out *)




Lemma outbound_calls_respond (up : upstream) :
  outbound_calls (trace (respond up)) = [].
Proof.
  destruct up as [status getheader resp_body | code body_bytes | e].
  - rewrite respond_response. cbn [trace fst]. unfold cors_events.
    change (SendResponse status :: ?l) with ([SendResponse status] ++ l).
    rewrite !outbound_calls_app, !outbound_calls_sent. reflexivity.
  - reflexivity.
  - reflexivity.
Qed.

Lemma outbound_calls_call (call : outbound) (timeout : Z) (t : list event) :
  outbound_calls (UrlOpen call timeout :: t) = call :: outbound_calls t.
Proof. reflexivity. Qed.

(** [relay] with a call in its trace: what was built on the way. *)
Lemma relay_inv (lib : stdlib) (url headers body : pyval)
  (call : outbound) (timeout : Z) :
  In (UrlOpen call timeout) (trace (relay lib url headers body)) ->
  exists data hs,
    request_data body = ([], Ret data)
    /\ Request_init lib url data = Ret tt
    /\ headers = VDict hs
    /\ call = {| req_url := url; req_data := data;
                 req_headers := hs ++ [accept_identity] |}
    /\ timeout = 120
    /\ relay lib url headers body
       = (UrlOpen call 120 :: trace (respond (urlopen lib call 120)),
          result (respond (urlopen lib call 120))).
Proof.
  unfold relay. intros Hin.
  assert (Hd : (exists data, request_data body = ret data) \/
               request_data body = raise UnicodeEncodeError).
  { unfold request_data, encode.
    destruct body; try (destruct (encode_utf8 _); eauto). }
  destruct Hd as [[data Hd] | Hd]; rewrite Hd in Hin |- *;
    [|destruct Hin].
  rewrite bind_ret_l in Hin |- *.
  destruct (Request_init lib url data) as [[]|e] eqn:Hr; [|destruct Hin].
  rewrite bind_lift_ret in Hin |- *.
  destruct headers as [| | | | |? |hs]; try (destruct Hin).
  cbn [items] in Hin |- *. rewrite bind_ret_l in Hin |- *.
  rewrite bind_emit in Hin |- *. cbn [trace fst] in Hin.
  destruct Hin as [Heq | Hin]; [|exfalso; exact (respond_no_call _ _ _ Hin)].
  injection Heq as <- <-.
  exists data, hs. repeat split; assumption.
Qed.

(** A call in the trace of [do_POST] comes from [relay]. *)
Lemma do_POST_call_inv (lib : stdlib) (rq : inbound) (call : outbound)
  (timeout : Z) :
  In (UrlOpen call timeout) (trace (do_POST lib rq)) ->
  exists d,
    json_loads lib (raw rq) = Loaded (VDict d)
    /\ do_POST lib rq
       = relay lib (payload_url d) (payload_headers d) (payload_body d).
Proof.
  intros Hin.
  destruct (do_POST_cases lib rq)
    as [[_ H] | [[Hp Hl] | [[e H] | (d & host & Hp & Hl & Hh & [[Ha H] | [Ha H]])]]].
  - rewrite H in Hin. cbn in Hin. intuition discriminate.
  - rewrite (do_POST_malformed lib rq Hp Hl) in Hin. cbn in Hin.
    intuition discriminate.
  - rewrite H in Hin. destruct Hin.
  - rewrite H, reject_run in Hin. cbn in Hin. intuition discriminate.
  - exists d. split; assumption.
Qed.

(** *** Properties *)


(** X5.  A body that is JSON but no object (a list, a string, a number,
    [null]) makes the handler raise [AttributeError] at [payload.get];
    nothing is sent and no call is made. *)
Theorem non_object_payload_raises (lib : stdlib) (rq : inbound)
  (payload : pyval) :
  path rq = U "/proxy" ->
  json_loads lib (raw rq) = Loaded payload ->
  (forall d, payload <> VDict d) ->
  do_POST lib rq = ([], Raise AttributeError).
Proof.
  intros Hp Hl Hno. unfold do_POST.
  rewrite Hp, str_eqb_refl, Hl. cbn [negb].
  destruct payload; try reflexivity.
  exfalso. exact (Hno _ eq_refl).
Qed.

Lemma non_object_payload_raises_list :
  do_POST scripted2 (post (U "[1]")) = ([], Raise AttributeError).
Proof.
  apply (non_object_payload_raises scripted2 (post (U "[1]")) (VList [VInt 1])).
  - reflexivity.
  - reflexivity.
  - intros d H. discriminate H.
Defined.

(** X6.  When [urlopen] fails with anything but an [HTTPError], the
    handler has made its one call, sends nothing, and the exception
    leaves it. *)
Theorem transport_failure_sends_nothing (lib : stdlib) (rq : inbound)
  (call : outbound) (e : exn) :
  In (UrlOpen call 120) (trace (do_POST lib rq)) ->
  urlopen lib call 120 = TransportError e ->
  do_POST lib rq = ([UrlOpen call 120], Raise e)
  /\ sent (trace (do_POST lib rq)) = [].
Proof.
  intros Hin Hup.
  destruct (do_POST_call_inv lib rq call 120 Hin) as (d & _ & H).
  rewrite H in Hin |- *.
  destruct (relay_inv lib _ _ _ call 120 Hin) as (data & hs & _ & _ & _ & _ & _ & Hr).
  rewrite Hr, Hup. split; reflexivity.
Qed.

Lemma transport_failure_sends_nothing_down :
  do_POST scripted2 (post (raw_url_only down_url))
  = ([UrlOpen {| req_url := VStr down_url; req_data := [];
                 req_headers := [accept_identity] |} 120],
     Raise (OtherError "URLError")).
Proof.
  apply (transport_failure_sends_nothing scripted2
           (post (raw_url_only down_url))).
  - left. reflexivity.
  - reflexivity.
Defined.



(** X8.  A payload for an allowed host that has neither ["headers"] nor
    ["body"] is relayed all the same: with an empty body and the one
    header [Accept-Encoding: identity]. *)
Theorem bare_url_is_relayed (lib : stdlib) (rq : inbound)
  (d : pydict pyval) (host : pystr) :
  path rq = U "/proxy" ->
  json_loads lib (raw rq) = Loaded (VDict d) ->
  urlparse_hostname lib (payload_url d) = Ret (Some host) ->
  In host ALLOWED_HOSTS ->
  dict_get d (U "headers") = None ->
  dict_get d (U "body") = None ->
  Request_init lib (payload_url d) [] = Ret tt ->
  outbound_calls (trace (do_POST lib rq))
  = [ {| req_url := payload_url d; req_data := [];
         req_headers := [accept_identity] |} ]
  /\ do_POST lib rq
     = (UrlOpen {| req_url := payload_url d; req_data := [];
                   req_headers := [accept_identity] |} 120
          :: trace (respond (urlopen lib
               {| req_url := payload_url d; req_data := [];
                  req_headers := [accept_identity] |} 120)),
        result (respond (urlopen lib
               {| req_url := payload_url d; req_data := [];
                  req_headers := [accept_identity] |} 120))).
Proof.
  intros Hp Hl Hh Ha Hhs Hb Hr.
  assert (Hal : host_allowed (Some host) = true)
    by (apply host_allowed_true; eauto).
  rewrite (do_POST_parsed lib rq d _ Hp Hl Hh), Hal.
  assert (Hrelay :
    relay lib (payload_url d) (payload_headers d) (payload_body d)
    = (UrlOpen {| req_url := payload_url d; req_data := [];
                  req_headers := [accept_identity] |} 120
         :: trace (respond (urlopen lib
              {| req_url := payload_url d; req_data := [];
                 req_headers := [accept_identity] |} 120)),
       result (respond (urlopen lib
              {| req_url := payload_url d; req_data := [];
                 req_headers := [accept_identity] |} 120)))).
  { unfold relay, payload_headers, payload_body. rewrite Hhs, Hb.
    cbn [default request_data encode encode_utf8 items].
    rewrite bind_ret_l, Hr, bind_lift_ret, bind_ret_l.
    apply bind_emit. }
  rewrite Hrelay. split; [|reflexivity].
  cbn [trace fst]. now rewrite outbound_calls_call, outbound_calls_respond.
Qed.

Lemma bare_url_is_relayed_openai :
  outbound_calls (trace (do_POST scripted2 (post (raw_url_only openai_url))))
  = [ {| req_url := VStr openai_url; req_data := [];
         req_headers := [accept_identity] |} ]
  /\ status_of (trace (do_POST scripted2 (post (raw_url_only openai_url))))
     = Some 200.
Proof.
  destruct (bare_url_is_relayed scripted2 (post (raw_url_only openai_url))
              [(U "url", VStr openai_url)] (U "api.openai.com"))
    as [Hc Hrun].
  - reflexivity.
  - reflexivity.
  - reflexivity.
  - left. reflexivity.
  - reflexivity.
  - reflexivity.
  - reflexivity.
  - split; [exact Hc|]. rewrite Hrun. reflexivity.
Defined.

(** X9.  When ["headers"] is there and is no object, the handler raises
    [AttributeError] at [headers.items()]: the request was built, but no
    call is made and nothing is sent. *)
Theorem non_object_headers_raises (lib : stdlib) (rq : inbound)
  (d : pydict pyval) (host : pystr) (data : pybytes) :
  path rq = U "/proxy" ->
  json_loads lib (raw rq) = Loaded (VDict d) ->
  urlparse_hostname lib (payload_url d) = Ret (Some host) ->
  In host ALLOWED_HOSTS ->
  request_data (payload_body d) = ([], Ret data) ->
  Request_init lib (payload_url d) data = Ret tt ->
  (forall hs, payload_headers d <> VDict hs) ->
  do_POST lib rq = ([], Raise AttributeError).
Proof.
  intros Hp Hl Hh Ha Hd Hr Hno.
  assert (Hal : host_allowed (Some host) = true)
    by (apply host_allowed_true; eauto).
  rewrite (do_POST_parsed lib rq d _ Hp Hl Hh), Hal.
  unfold relay. rewrite Hd. change ([], Ret data) with (ret (A:=pybytes) data).
  rewrite bind_ret_l, Hr, bind_lift_ret.
  destruct (payload_headers d); try reflexivity.
  exfalso. exact (Hno _ eq_refl).
Qed.

Lemma non_object_headers_raises_null :
  do_POST scripted2 (post raw_null_headers) = ([], Raise AttributeError).
Proof.
  apply (non_object_headers_raises scripted2 (post raw_null_headers)
           [(U "url", VStr openai_url); (U "headers", VNone)]
           (U "api.openai.com") []).
  - reflexivity.
  - reflexivity.
  - reflexivity.
  - left. reflexivity.
  - reflexivity.
  - reflexivity.
  - intros hs H. discriminate H.
Defined.

(** X10.  A status the handler sends is its own or the target's: when
    no call was made it is 404, 400 or 403; otherwise one call was made,
    with the timeout of 120 seconds, and the status is the one of the
    response, or of the [HTTPError], that [urlopen] gave for that call. *)
Theorem status_is_own_or_upstream (lib : stdlib) (rq : inbound) (code : Z) :
  status_of (trace (do_POST lib rq)) = Some code ->
  (outbound_calls (trace (do_POST lib rq)) = []
   /\ (code = 404 \/ code = 400 \/ code = 403))
  \/ (exists call,
        outbound_calls (trace (do_POST lib rq)) = [call]
        /\ In (UrlOpen call 120) (trace (do_POST lib rq))
        /\ ((exists getheader body,
               urlopen lib call 120 = Response code getheader body)
            \/ (exists body, urlopen lib call 120 = HTTPError code body))).
Proof.
  intros Hst.
  destruct (do_POST_cases lib rq)
    as [[_ H] | [[Hp Hl] | [[e H] | (d & host & Hp & Hl & Hh & [[Ha H] | [Ha H]])]]].
  - left. rewrite H in Hst |- *. injection Hst as <-. split; [reflexivity | auto].
  - left. rewrite (do_POST_malformed lib rq Hp Hl) in Hst |- *.
    injection Hst as <-. split; [reflexivity | auto].
  - rewrite H in Hst. discriminate.
  - left. rewrite H, reject_run in Hst |- *. injection Hst as <-.
    split; [reflexivity | auto].
  - rewrite H in Hst |- *.
    destruct (relay_cases lib (payload_url d) (payload_headers d)
                (payload_body d)) as [[e He] | (data & hs & _ & He)].
    + rewrite He in Hst. discriminate.
    + cbn zeta in He. rewrite He in Hst |- *.
      set (call := {| req_url := payload_url d; req_data := data;
                      req_headers :=
                        hs ++ [(U "Accept-Encoding", VStr (U "identity"))] |})
        in *.
      right. exists call. cbn [trace fst].
      rewrite outbound_calls_call, outbound_calls_respond.
      split; [reflexivity | split; [left; reflexivity|]].
      cbn [trace fst] in Hst.
      change (status_of (trace (respond (urlopen lib call 120))) = Some code)
        in Hst.
      destruct (urlopen lib call 120) as [status getheader body | c body | e].
      * rewrite respond_response in Hst. injection Hst as <-.
        left. exists getheader, body. reflexivity.
      * rewrite respond_error in Hst. injection Hst as <-.
        right. exists body. reflexivity.
      * discriminate Hst.
Qed.

Lemma status_is_own_or_upstream_missing :
  (outbound_calls (trace (do_POST scripted (post (raw_for missing_url)))) = []
   /\ (404 = 404 \/ 404 = 400 \/ 404 = 403))
  \/ (exists call,
        outbound_calls (trace (do_POST scripted (post (raw_for missing_url))))
        = [call]
        /\ In (UrlOpen call 120)
             (trace (do_POST scripted (post (raw_for missing_url))))
        /\ ((exists getheader body,
               urlopen scripted call 120 = Response 404 getheader body)
            \/ (exists body, urlopen scripted call 120 = HTTPError 404 body))).
Proof.
  apply (status_is_own_or_upstream scripted (post (raw_for missing_url)) 404).
  reflexivity.
Defined.

(** X11.  A POST to [/proxy] without a [Content-Length] header is read
    as an empty body, whatever the client sent: as [json.loads] rejects
    the empty body, the answer is the 400 of a body that is not JSON. *)
Theorem no_content_length_is_400 (lib : stdlib)
  (py_int : pystr -> outcome Z) (w : wire) :
  wire_path w = U "/proxy" ->
  content_length w = None ->
  json_loads lib [] = JSONDecodeError ->
  do_POST_wire lib py_int w
  = ([SendResponse 400; EndHeaders; WfileWrite (Q "{'error':'Invalid JSON'}")],
     Ret tt).
Proof.
  intros Hp Hc Hl. unfold do_POST_wire, read_length.
  rewrite Hp, str_eqb_refl, Hc. cbn [negb].
  rewrite bind_ret_l. unfold rfile_read.
  cbn [Z.ltb Z.eqb Z.compare Z.to_nat take]. rewrite bind_ret_l.
  apply do_POST_malformed; [reflexivity | exact Hl].
Qed.

Lemma no_content_length_is_400_full_body :
  do_POST_wire scripted digits_int
    {| wire_path := U "/proxy"; content_length := None;
       wire_body := raw_for openai_url |}
  = ([SendResponse 400; EndHeaders; WfileWrite (Q "{'error':'Invalid JSON'}")],
     Ret tt).
Proof.
  apply (no_content_length_is_400 scripted digits_int).
  - reflexivity.
  - reflexivity.
  - reflexivity.
Defined.



End ProxyMore.

(* ================================================================== *)
(** ** The refresh helper: further properties *)
(* ================================================================== *)

Module RefreshMore.
Import Py Refresh PyFacts RefreshProofs MergeNotions Scenario Scenario2.

(** *** The index keeps the last record of a name *)

Lemma index_from_keeps (i : nat) (ms : store) (idx0 idx : pydict nat)
  (name : pystr) (v : nat) :
  index_from i ms idx0 = Ret idx ->
  dict_get idx0 name = Some v ->
  exists p, dict_get idx name = Some p /\ (p = v \/ i <= p)%nat.
Proof.
  revert i idx0 v. induction ms as [|m ms IH]; intros i idx0 v Hi Hv.
  - simpl in Hi. injection Hi as <-. eauto.
  - revert Hi. cbn [index_from].
    destruct (dict_get m (U "model")) as [[| | | |s| |]|] eqn:Hm;
      intros Hi; try discriminate;
      try (destruct (IH _ _ _ Hi Hv) as (p & Hp & Hc);
           exists p; split; [exact Hp | lia]).
    destruct (str_eqb s name) eqn:E.
    + apply str_eqb_eq in E. subst s.
      destruct (IH _ _ i Hi (dict_get_set_eq idx0 name i))
        as (p & Hp & Hc); exists p; split; [exact Hp | lia].
    + apply str_eqb_neq in E.
      assert (Hv' : dict_get (dict_set idx0 s i) name = Some v)
        by (rewrite dict_get_set_ne; assumption).
      destruct (IH _ _ _ Hi Hv') as (p & Hp & Hc);
        exists p; split; [exact Hp | lia].
Qed.

Lemma index_from_last (pre ms : store) (idx0 idx : pydict nat)
  (name : pystr) (p q : nat) (m : record) :
  index_from (length pre) ms idx0 = Ret idx ->
  dict_get idx name = Some p ->
  (pre ++ ms) !! q = Some m ->
  (length pre <= q)%nat ->
  dict_get m (U "model") = Some (VStr name) ->
  (q <= p)%nat.
Proof.
  revert pre idx0. induction ms as [|m0 ms IH]; intros pre idx0 Hi Hp Hq Hle Hm.
  - rewrite app_nil_r in Hq. apply lookup_lt_Some in Hq. lia.
  - revert Hi. cbn [index_from]. intros Hi.
    assert (Hlen : S (length pre) = length (pre ++ [m0]))
      by (rewrite length_app; simpl; lia).
    replace (pre ++ m0 :: ms) with ((pre ++ [m0]) ++ ms) in Hq
      by now rewrite <- app_assoc.
    destruct (decide (q = length pre)) as [-> | Hne].
    + rewrite <- app_assoc in Hq. cbn [app] in Hq.
      rewrite list_lookup_middle in Hq by reflexivity.
      injection Hq as ->. rewrite Hm in Hi.
      rewrite Hlen in Hi.
      destruct (index_from_keeps _ _ _ _ name (length pre) Hi
                  (dict_get_set_eq idx0 name (length pre)))
        as (p' & Hp' & Hcase).
      rewrite Hp in Hp'. injection Hp' as <-. lia.
    + revert Hi. rewrite Hlen.
      destruct (dict_get m0 (U "model")) as [[| | | |s| |]|];
        intros Hi; try discriminate;
        apply (IH (pre ++ [m0]) _ Hi Hp Hq); try assumption;
        rewrite <- Hlen; lia.
Qed.

(** *** Lines and writes *)

Lemma grows_refl st : grows st st.
Proof. now left. Qed.

Lemma grows_trans st1 st2 st3 : grows st1 st2 -> grows st2 st3 -> grows st1 st3.
Proof.
  intros [-> | (a & Ha & H12)] [-> | (b & Hb & H23)].
  - now left.
  - right. eauto.
  - right. eauto.
  - right. exists (a ++ b). split.
    + destruct a; [contradiction | discriminate].
    + rewrite H23, H12. now rewrite app_assoc.
Qed.

Lemma merge_field_grows isp name prices i st field :
  grows st (merge_field isp name prices i st field).
Proof.
  destruct st as [ms ch]. unfold merge_field.
  destruct (dict_get prices field) as [new|]; [|apply grows_refl].
  destruct (ms !! i) as [m|]; [|apply grows_refl].
  destruct (num_ne new _); [|apply grows_refl].
  right. eexists. split; [|reflexivity]. discriminate.
Qed.

Lemma merge_entry_grows isp idx st entry :
  grows st (merge_entry isp idx st entry).
Proof.
  destruct entry as [name prices]. unfold merge_entry.
  destruct (dict_get idx name) as [i|].
  - unfold price_fields. cbn [fold_left].
    eapply grows_trans; apply merge_field_grows.
  - right. eexists. split; [|reflexivity]. discriminate.
Qed.

Lemma merge_loop_grows isp idx upd st :
  grows st (fold_left (merge_entry isp idx) upd st).
Proof.
  revert st. induction upd as [|e upd IH]; intros st; cbn [fold_left].
  - apply grows_refl.
  - eapply grows_trans; [apply merge_entry_grows | apply IH].
Qed.

(** *** Prices that are the stored ones *)

Lemma merge_field_equal isp name prices i ms ch field :
  (forall new m, dict_get prices field = Some new -> ms !! i = Some m ->
                 num_ne new (default VNone (dict_get m field)) = false) ->
  merge_field isp name prices i (ms, ch) field = (ms, ch).
Proof.
  intros H. unfold merge_field.
  destruct (dict_get prices field) as [new|]; [|reflexivity].
  destruct (ms !! i) as [m|]; [|reflexivity].
  now rewrite (H new m eq_refl eq_refl).
Qed.

Lemma merge_loop_equal isp idx (upd : updates) ms ch :
  (forall name prices i field new m,
     In (name, prices) upd -> dict_get idx name = Some i ->
     In field price_fields -> dict_get prices field = Some new ->
     ms !! i = Some m ->
     num_ne new (default VNone (dict_get m field)) = false) ->
  fold_left (merge_entry isp idx) upd (ms, ch)
  = (ms, ch ++ notices_of idx upd).
Proof.
  revert ch. induction upd as [|[name prices] upd IH]; intros ch H.
  - cbn. now rewrite app_nil_r.
  - cbn [fold_left]. unfold notices_of.
    cbn [List.map fst List.filter]. unfold dict_mem.
    unfold merge_entry at 2.
    destruct (dict_get idx name) as [i|] eqn:Hi; cbn [negb].
    + unfold price_fields. cbn [fold_left].
      rewrite !merge_field_equal
        by (intros new m Hp Hl; eapply (H name prices i); cbn; eauto).
      apply IH. intros n p j f new m Hin. apply (H n p j f new m). now right.
    + cbn [fst snd]. rewrite IH
        by (intros n p j f new m Hin; apply (H n p j f new m); now right).
      cbn [List.map]. now rewrite <- app_assoc.
Qed.

(** *** A record without a name *)

Lemma index_from_nameless (i : nat) (ms : store) (idx0 : pydict nat)
  (m : record) :
  In m ms -> dict_get m (U "model") = None ->
  index_from i ms idx0 = Raise KeyError
  \/ index_from i ms idx0 = Raise TypeError.
Proof.
  revert i idx0. induction ms as [|m0 ms IH]; intros i idx0 Hin Hm;
    [destruct Hin|].
  cbn [index_from]. destruct Hin as [-> | Hin].
  - rewrite Hm. now left.
  - destruct (dict_get m0 (U "model")) as [[| | | |s| |]|]; auto.
Qed.

(** *** Properties of the merge *)

(** X12.  After a merge every price of the update set is in the dataset:
    for a name the index has, the field of its record holds the new price
    or a value equal to it (as 3 is to 3.0); when the price is not [nan],
    the field compares equal to it. *)
Theorem merge_applies_prices (isp : Z -> bool) (data : dataset)
  (upd : updates) (idx : pydict nat) (name : pystr)
  (prices : pydict pynum) (i : nat) (field : pystr) (new : pynum) :
  NoDup (List.map fst upd) ->
  model_index (models data) = Ret idx ->
  In (name, prices) upd ->
  dict_get idx name = Some i ->
  In field price_fields ->
  dict_get prices field = Some new ->
  exists m',
    models (fst (merge_updates isp data upd)) !! i = Some m'
    /\ (num_ne new (default VNone (dict_get m' field)) = false
        \/ dict_get m' field = Some (num_val new))
    /\ (num_is_nan new = false ->
        num_ne new (default VNone (dict_get m' field)) = false).
Proof.
  intros Hnd Hi Hin Hg Hf Hp.
  pose proof (merge_updates_frame isp data upd) as Hfr.
  pose proof (model_index_sound _ _ Hi) as Hsound.
  destruct (Hsound _ _ Hg) as (m & Hl & _).
  destruct (Forall2_lookup_l _ _ _ _ _ Hfr Hl) as (m' & Hl' & _).
  exists m'. split; [exact Hl'|].
  assert (Hs : num_ne new (default VNone (dict_get m' field)) = false
               \/ dict_get m' field = Some (num_val new)).
  { rewrite (merge_updates_returns isp data upd idx Hi) in Hl'.
    cbn [fst models] in Hl'.
    apply (merge_loop_settles isp idx upd (models data, [])
             (fun n1 n2 j => index_sound_inj _ _ n1 n2 j Hsound)
             Hnd name prices i field Hin Hg Hf m' new Hl' Hp). }
  split; [exact Hs|].
  intros Hnan. destruct Hs as [Hs | Hs]; [exact Hs|].
  rewrite Hs. apply (num_ne_self new Hnan).
Qed.

Lemma merge_applies_prices_two :
  exists m',
    models (fst (merge_updates ascii_printable sample_data two_prices))
      !! 0%nat = Some m'
    /\ dict_get m' (U "output_per_mtok") = Some (VFloat 8)
    /\ num_ne (NFloat 8) (default VNone (dict_get m' (U "output_per_mtok")))
       = false.
Proof.
  destruct (merge_applies_prices ascii_printable sample_data two_prices
              [(U "gpt-4o", 0%nat); (U "claude-sonnet", 1%nat)]
              (U "gpt-4o")
              [(U "input_per_mtok", NFloat 2); (U "output_per_mtok", NFloat 8)]
              0%nat (U "output_per_mtok") (NFloat 8))
    as (m' & Hl & _ & Hne).
  - cbn. apply NoDup_cons. split; [apply not_elem_of_nil | apply NoDup_nil_2].
  - reflexivity.
  - left. reflexivity.
  - reflexivity.
  - right. left. reflexivity.
  - reflexivity.
  - exists m'. split; [exact Hl|]. split; [|exact (Hne eq_refl)].
    cbv in Hl. injection Hl as <-. reflexivity.
Defined.

(** X13.  No write goes unreported: when [merge_updates] returns the
    empty list, the dataset is as it was. *)
Theorem no_line_no_change (isp : Z -> bool) (data : dataset)
  (upd : updates) :
  snd (merge_updates isp data upd) = Ret [] ->
  fst (merge_updates isp data upd) = data.
Proof.
  destruct (model_index (models data)) as [idx|e] eqn:Hi.
  - rewrite (merge_updates_returns isp data upd idx Hi). cbn [fst snd].
    intros [= Hch].
    destruct (merge_loop_grows isp idx upd (models data, []))
      as [Heq | (added & Hne & Hadd)].
    + rewrite Heq. cbn [fst]. now destruct data.
    + rewrite Hch in Hadd. cbn [snd app] in Hadd. congruence.
  - rewrite (merge_updates_raises isp data upd e Hi). reflexivity.
Qed.

Lemma no_line_no_change_same_price :
  snd (merge_updates ascii_printable sample_data same_price) = Ret []
  /\ fst (merge_updates ascii_printable sample_data same_price) = sample_data.
Proof.
  split; [reflexivity|].
  apply (no_line_no_change ascii_printable sample_data same_price).
  reflexivity.
Defined.

(** X14.  A record whose name is no key of the update set (or is no str)
    comes out of the merge exactly as it went in. *)
Theorem other_records_untouched (isp : Z -> bool) (data : dataset)
  (upd : updates) (i : nat) (m : record) :
  models data !! i = Some m ->
  (forall name, In name (List.map fst upd) ->
                dict_get m (U "model") <> Some (VStr name)) ->
  models (fst (merge_updates isp data upd)) !! i = Some m.
Proof.
  intros Hl Hno.
  destruct (model_index (models data)) as [idx|e] eqn:Hi.
  - rewrite (merge_updates_returns isp data upd idx Hi). cbn [fst models].
    rewrite (merge_loop_other isp idx upd (models data, []) i); [exact Hl|].
    intros name Hn Hg.
    destruct (model_index_sound _ _ Hi _ _ Hg) as (m0 & Hl0 & Hm0).
    assert (Some m0 = Some m) as [= ->] by (rewrite <- Hl0; exact Hl).
    exact (Hno name Hn Hm0).
  - rewrite (merge_updates_raises isp data upd e Hi). exact Hl.
Qed.

Lemma other_records_untouched_claude :
  models (fst (merge_updates ascii_printable sample_data two_prices))
    !! 1%nat = Some claude.
Proof.
  apply (other_records_untouched ascii_printable sample_data two_prices).
  - reflexivity.
  - intros name [<- | []] H. discriminate H.
Defined.

(** X15.  When two records have the same name, only the last one is ever
    written: the earlier one comes out of every merge as it went in. *)
Theorem earlier_twin_untouched (isp : Z -> bool) (data : dataset)
  (upd : updates) (i j : nat) (m_i m_j : record) (name : pystr) :
  (i < j)%nat ->
  models data !! i = Some m_i ->
  models data !! j = Some m_j ->
  dict_get m_i (U "model") = Some (VStr name) ->
  dict_get m_j (U "model") = Some (VStr name) ->
  models (fst (merge_updates isp data upd)) !! i = Some m_i.
Proof.
  intros Hlt Hli Hlj Hmi Hmj.
  destruct (model_index (models data)) as [idx|e] eqn:Hi.
  - rewrite (merge_updates_returns isp data upd idx Hi). cbn [fst models].
    rewrite (merge_loop_other isp idx upd (models data, []) i); [exact Hli|].
    intros n Hn Hg.
    destruct (model_index_sound _ _ Hi _ _ Hg) as (m0 & Hl0 & Hm0).
    assert (Some m0 = Some m_i) as [= ->] by (rewrite <- Hl0; exact Hli).
    assert (n = name) as -> by congruence.
    pose proof (index_from_last [] (models data) [] idx name i j m_j
                  Hi Hg Hlj (Nat.le_0_l j) Hmj).
    lia.
  - rewrite (merge_updates_raises isp data upd e Hi). exact Hli.
Qed.

Lemma earlier_twin_untouched_gpt :
  models (fst (merge_updates ascii_printable twins two_prices)) !! 0%nat
  = Some old_gpt_4o
  /\ models (fst (merge_updates ascii_printable twins two_prices)) !! 2%nat
     = Some (dict_set (dict_set gpt_4o (U "input_per_mtok") (VFloat 2))
               (U "output_per_mtok") (VFloat 8)).
Proof.
  split; [|reflexivity].
  apply (earlier_twin_untouched ascii_printable twins two_prices
           0 2 old_gpt_4o gpt_4o (U "gpt-4o")).
  - lia.
  - reflexivity.
  - reflexivity.
  - reflexivity.
  - reflexivity.
Defined.

(** X16.  A record without the key ["model"] makes every merge raise
    before it writes, [KeyError] or [TypeError]; the dataset is as it
    was, whatever the update set. *)
Theorem nameless_record_raises (isp : Z -> bool) (data : dataset)
  (upd : updates) (m : record) :
  In m (models data) ->
  dict_get m (U "model") = None ->
  merge_updates isp data upd = (data, Raise KeyError)
  \/ merge_updates isp data upd = (data, Raise TypeError).
Proof.
  intros Hin Hm.
  destruct (index_from_nameless 0 (models data) [] m Hin Hm) as [H | H];
    [left | right]; apply merge_updates_raises; exact H.
Qed.

Lemma nameless_record_raises_broken :
  merge_updates ascii_printable broken price_cut = (broken, Raise KeyError)
  \/ merge_updates ascii_printable broken price_cut
     = (broken, Raise TypeError).
Proof.
  apply (nameless_record_raises ascii_printable broken price_cut nameless).
  - right. left. reflexivity.
  - reflexivity.
Defined.

(** X17.  When every price of the update set compares equal to what its
    record holds, the merge writes nothing, and what it returns is the
    notices for the names that no record has. *)
Theorem equal_prices_are_not_written (isp : Z -> bool) (data : dataset)
  (upd : updates) (idx : pydict nat) :
  model_index (models data) = Ret idx ->
  (forall name prices i field new m,
     In (name, prices) upd -> dict_get idx name = Some i ->
     In field price_fields -> dict_get prices field = Some new ->
     models data !! i = Some m ->
     num_ne new (default VNone (dict_get m field)) = false) ->
  merge_updates isp data upd
  = (data, Ret (new_model_notices (models data) upd)).
Proof.
  intros Hi Heq. rewrite (merge_updates_returns isp data upd idx Hi).
  rewrite (merge_loop_equal isp idx upd (models data) [] Heq).
  cbn [fst snd app]. rewrite (notices_of_index _ _ upd Hi).
  now destruct data.
Qed.

Lemma equal_prices_are_not_written_claude :
  merge_updates ascii_printable sample_data same_price
  = (sample_data, Ret []).
Proof.
  apply (equal_prices_are_not_written ascii_printable sample_data same_price
           [(U "gpt-4o", 0%nat); (U "claude-sonnet", 1%nat)]).
  - reflexivity.
  - intros name prices i field new m [[= <- <-] | []] Hg Hf Hp Hl.
    injection Hg as <-. cbv in Hl. injection Hl as <-.
    destruct Hf as [<- | [<- | []]].
    + injection Hp as <-. reflexivity.
    + discriminate Hp.
Defined.

(** *** Properties of the run *)

Lemma fst_wbind {A B} (m : W A) (k : A -> W B) :
  fst (wbind m k) = fst m ++ fst (k (snd m)).
Proof. destruct m as [o a]. unfold wbind. cbn [fst snd]. now destruct (k a). Qed.

Lemma PARSERS_one_line findall provider parser html :
  dict_get (PARSERS findall) provider = Some parser ->
  exists line, fst (parser html) = [line].
Proof.
  unfold PARSERS. cbn [dict_get].
  repeat (destruct (str_eqb _ provider);
          [intros [= <-]; try (eexists; reflexivity)|]).
  - unfold parse_deepseek. rewrite fst_wbind.
    destruct (nonempty (findall html)); eexists; reflexivity.
  - discriminate.
Qed.

Lemma fetch_url_cases urlopen_read url :
  (exists text, urlopen_read url = Fetched text
                /\ fetch_url urlopen_read url = ([], Ret (Some text)))
  \/ (exists e, urlopen_read url = FetchFailed e
                /\ fetch_url urlopen_read url
                   = ([U "  [WARN] Failed to fetch " ++ url ++ U ": " ++ e],
                      Ret None))
  \/ (exists e, urlopen_read url = FetchRaises e
                /\ fetch_url urlopen_read url = ([], Raise e)).
Proof.
  unfold fetch_url. destruct (urlopen_read url) as [text | e | e].
  - left. exists text. split; reflexivity.
  - right; left. exists e. split; reflexivity.
  - right; right. exists e. split; reflexivity.
Qed.

(** The loop over providers whose fetches end within [fetch_url] prints
    two lines for each and goes on with what follows, with the updates
    it was given. *)
Lemma fetch_and_parse_lines urlopen_read findall urls :
  Forall (fun pu => dict_mem (PARSERS findall) (fst pu) = true) urls ->
  Forall (fun pu => caught (urlopen_read (snd pu)) = true) urls ->
  exists seconds,
    Forall2 (second_line urlopen_read findall) urls seconds
    /\ forall rest all_updates,
         fetch_and_parse urlopen_read findall (urls ++ rest) all_updates
         = (loop_lines urls seconds
              ++ fst (fetch_and_parse urlopen_read findall rest all_updates),
            snd (fetch_and_parse urlopen_read findall rest all_updates)).
Proof.
  intros Hall. induction Hall as [|[provider url] urls Hp _ IH]; intros Hc.
  - exists []. split; [constructor|]. intros rest all_updates.
    cbn [app]. unfold loop_lines. cbn.
    now destruct (fetch_and_parse urlopen_read findall rest all_updates).
  - apply Forall_cons in Hc as [Hc1 Hc].
    destruct (IH Hc) as (seconds & Hsec & Hout).
    unfold dict_mem in Hp. cbn [fst] in Hp. cbn [snd] in Hc1.
    destruct (fetch_url_cases urlopen_read url)
      as [(text & Hu & Hf) | [(e & Hu & Hf) | (e & Hu & Hf)]].
    + destruct (dict_get (PARSERS findall) provider) as [parser|] eqn:Hd;
        [|discriminate].
      destruct (PARSERS_one_line findall provider parser text Hd)
        as (line & Hline).
      exists (line :: seconds). split.
      * constructor; [|exact Hsec].
        right. exists text, parser. cbn [fst snd]. auto.
      * intros rest all_updates.
        change (((provider, url) :: urls) ++ rest)
          with ((provider, url) :: (urls ++ rest)).
        cbn [fetch_and_parse]. rewrite pbind_wlift, Hf, pbind_ret, Hd.
        rewrite pbind_wlift, Hline,
          (PARSERS_empty findall provider parser text Hd).
        cbn [nonempty]. rewrite pbind_wlift.
        cbn [print wret fst snd dict_update fold_left].
        rewrite Hout. reflexivity.
    + exists ((U "  [WARN] Failed to fetch " ++ url ++ U ": " ++ e) :: seconds).
      split.
      * constructor; [|exact Hsec].
        left. exists e. cbn [fst snd]. auto.
      * intros rest all_updates.
        change (((provider, url) :: urls) ++ rest)
          with ((provider, url) :: (urls ++ rest)).
        cbn [fetch_and_parse]. rewrite pbind_wlift, Hf, pbind_ret.
        cbn [print fst snd]. rewrite Hout. reflexivity.
    + rewrite Hu in Hc1. discriminate Hc1.
Qed.

(** X18.  A fetch failure that [fetch_url] catches does not stop the
    loop: when no fetch of the table raises another exception, the loop
    of [main] prints for each of the seven providers, in the order of
    the table, its [Fetching] line followed by one line, the warning of
    the failed fetch or the one line of the provider's parser, and ends
    with no update. *)
Theorem every_provider_is_visited (urlopen_read : pystr -> fetched)
  (findall : pystr -> list pystr) :
  Forall (fun pu => caught (urlopen_read (snd pu)) = true) PRICING_URLS ->
  exists seconds,
    Forall2 (second_line urlopen_read findall) PRICING_URLS seconds
    /\ length seconds = 7%nat
    /\ fetch_and_parse urlopen_read findall PRICING_URLS []
       = (loop_lines PRICING_URLS seconds, Ret []).
Proof.
  intros Hc.
  destruct (fetch_and_parse_lines urlopen_read findall PRICING_URLS)
    as (seconds & Hsec & Hout); [repeat constructor | exact Hc |].
  exists seconds. split; [exact Hsec|]. split.
  - symmetry. exact (Forall2_length _ _ _ Hsec).
  - specialize (Hout [] []). rewrite app_nil_r in Hout.
    rewrite Hout. cbn [fetch_and_parse pret fst snd].
    now rewrite app_nil_r.
Qed.

Lemma every_provider_is_visited_patchy :
  exists seconds,
    Forall2 (second_line Scenario3.patchy_network no_match)
      PRICING_URLS seconds
    /\ length seconds = 7%nat
    /\ fetch_and_parse Scenario3.patchy_network no_match PRICING_URLS []
       = (loop_lines PRICING_URLS seconds, Ret []).
Proof.
  apply every_provider_is_visited. repeat constructor.
Defined.

(** X21.  An exception that [fetch_url] does not catch stops the loop:
    when the fetches before a provider end within [fetch_url] and the
    provider's own fetch raises such an exception, the loop prints the
    lines of the providers before it and the provider's [Fetching] line,
    and ends with that exception; no later provider is fetched. *)
Theorem uncaught_fetch_error_stops_the_loop
  (urlopen_read : pystr -> fetched) (findall : pystr -> list pystr)
  (before after : pydict pystr) (provider url : pystr) (e : exn) :
  PRICING_URLS = before ++ (provider, url) :: after ->
  Forall (fun pu => caught (urlopen_read (snd pu)) = true) before ->
  urlopen_read url = FetchRaises e ->
  exists seconds,
    Forall2 (second_line urlopen_read findall) before seconds
    /\ fetch_and_parse urlopen_read findall PRICING_URLS []
       = (loop_lines before seconds ++ [fetching_line provider], Raise e).
Proof.
  intros Hsplit Hc Hu.
  assert (Forall (fun pu => dict_mem (PARSERS findall) (fst pu) = true)
            PRICING_URLS) as Hall by repeat constructor.
  rewrite Hsplit in Hall. apply Forall_app in Hall as [Hall _].
  destruct (fetch_and_parse_lines urlopen_read findall before Hall Hc)
    as (seconds & Hsec & Hout).
  exists seconds. split; [exact Hsec|].
  rewrite Hsplit, Hout. cbn [fetch_and_parse].
  rewrite pbind_wlift. unfold fetch_url. rewrite Hu. reflexivity.
Qed.

Lemma uncaught_fetch_error_stops_the_loop_garbled :
  exists seconds,
    Forall2 (second_line Scenario3.garbled_network no_match)
      (firstn 2 PRICING_URLS) seconds
    /\ fetch_and_parse Scenario3.garbled_network no_match PRICING_URLS []
       = (loop_lines (firstn 2 PRICING_URLS) seconds
            ++ [fetching_line (U "google")],
          Raise (OtherError "BadStatusLine")).
Proof.
  apply (uncaught_fetch_error_stops_the_loop Scenario3.garbled_network
           no_match (firstn 2 PRICING_URLS) (skipn 3 PRICING_URLS)
           (U "google") (U "https://ai.google.dev/gemini-api/docs/pricing")
           (OtherError "BadStatusLine")).
  - reflexivity.
  - repeat constructor.
  - reflexivity.
Defined.

End RefreshMore.
